(** * chiadog: event generation and filtering pipeline

    A shallow embedding of four source files of the repository

      - [src/notifier/__init__.py]                    (Module [Notifier])
      - [src/chia_log/api_handler.py]                 (Module [ApiHandler])
      - [src/chia_log/handlers/partial_handler.py]    (Module [PartialHandler])
      - [src/chia_log/parsers/wallet_added_coin_parser.py]
                                                      (Module [WalletAddedCoinParser])

    Python values that come from YAML or JSON are modelled by [pyval], Python
    exceptions by the error monad [result], and the standard-library / third
    party functions the code calls ([re.search], [json.loads], [jsonLogic],
    [cgi.parse_header], [dateutil.parser.parse]) are parameters gathered in
    records, so every theorem holds for any behaviour of those libraries.
    Strings are byte strings; [lower] and [upper] act on ASCII letters.
    Times ([time.time()]) are whole seconds. *)

From Stdlib Require Import ZArith Ascii String List Bool.
From stdpp Require Import base option list strings gmap.

Set Warnings "-register-all".

Local Open Scope string_scope.
Local Open Scope Z_scope.
Local Open Scope list_scope.

(** ** Python run-time values and exceptions *)

Module Py.

(** The exception classes that the modelled code can meet.  All of them are
    subclasses of [Exception]. *)
Inductive exn : Type :=
| TypeError
| KeyError
| ValueError
| AttributeError
| JSONDecodeError
| ReError
| ParserError
| OtherException (name : string).

(** A computation that returns a value or raises. *)
Inductive result (A : Type) : Type :=
| Ok (a : A)
| Raise (e : exn).
Arguments Ok {A} a.
Arguments Raise {A} e.

Definition bind {A B : Type} (m : result A) (k : A -> result B) : result B :=
  match m with
  | Ok a => k a
  | Raise e => Raise e
  end.

(** Values as produced by the YAML and JSON loaders (floats are left out). *)
Inductive pyval : Type :=
| PNone
| PBool (b : bool)
| PInt (z : Z)
| PStr (s : string)
| PList (l : list pyval)
| PDict (d : gmap string pyval).

(** [bool(v)] *)
Definition truthy (v : pyval) : bool :=
  match v with
  | PNone => false
  | PBool b => b
  | PInt z => negb (z =? 0)
  | PStr s => negb (String.eqb s "")
  | PList l => match l with [] => false | _ => true end
  | PDict d => negb (bool_decide (d = ∅))
  end.

(** [v == s] for a [str] [s]: only an equal [str] compares equal. *)
Definition eq_str (v : pyval) (s : string) : bool :=
  match v with
  | PStr t => String.eqb t s
  | _ => false
  end.

(** [needle in hay] on two [str]s. *)
Fixpoint str_contains (needle hay : string) : bool :=
  String.prefix needle hay ||
  match hay with
  | EmptyString => false
  | String _ hay' => str_contains needle hay'
  end.

(** [key in c] for a [str] [key]. *)
Definition contains (key : string) (c : pyval) : result bool :=
  match c with
  | PDict d => Ok (bool_decide (is_Some (d !! key)))
  | PList l => Ok (existsb (fun v => eq_str v key) l)
  | PStr s => Ok (str_contains key s)
  | PNone | PBool _ | PInt _ => Raise TypeError
  end.

(** [c[key]] for a [str] [key]. *)
Definition getitem (c : pyval) (key : string) : result pyval :=
  match c with
  | PDict d => match d !! key with Some v => Ok v | None => Raise KeyError end
  | _ => Raise TypeError
  end.

Definition lower_ascii (c : ascii) : ascii :=
  let n := nat_of_ascii c in
  if (65 <=? n)%nat && (n <=? 90)%nat then ascii_of_nat (n + 32) else c.

Definition upper_ascii (c : ascii) : ascii :=
  let n := nat_of_ascii c in
  if (97 <=? n)%nat && (n <=? 122)%nat then ascii_of_nat (n - 32) else c.

(** [s.lower()] and [s.upper()] *)
Fixpoint lower (s : string) : string :=
  match s with
  | EmptyString => EmptyString
  | String c s' => String (lower_ascii c) (lower s')
  end.

Fixpoint upper (s : string) : string :=
  match s with
  | EmptyString => EmptyString
  | String c s' => String (upper_ascii c) (upper s')
  end.

(** Rocq string literals are written here without the double-quote
    character: [dq s] is [s] with every apostrophe replaced by one. *)
Fixpoint dq (s : string) : string :=
  match s with
  | EmptyString => EmptyString
  | String c s' =>
      String (if Ascii.eqb c "'" then ascii_of_nat 34 else c) (dq s')
  end.

End Py.

Export Py.

Notation "'let*' x ':=' m 'in' k" := (Py.bind m (fun x => k))
  (at level 10, x name, m at level 100, k at level 200).


(** ** [src/notifier/__init__.py] *)

Module Notifier.

(** Ignore Chiadog alerts about being offline due to entire container just
    launching in the first 30 minutes. *)
Definition MINIMUM_LAUNCH_SECONDS_BEFORE_ALERTING_ABOUT_BEING_OFFLINE : Z := 30 * 60.

Inductive EventPriority : Type := LOW | NORMAL | HIGH.

Inductive EventType : Type :=
  KEEPALIVE | USER | DAILY_STATS | PLOTDECREASE | PLOTINCREASE.

Inductive EventService : Type :=
  HARVESTER | FARMER | FULL_NODE | DAILY | WALLET.

(** The [.name] of an enum member. *)
Definition EventPriority_name (p : EventPriority) : string :=
  match p with LOW => "LOW" | NORMAL => "NORMAL" | HIGH => "HIGH" end.

Definition EventType_name (t : EventType) : string :=
  match t with
  | KEEPALIVE => "KEEPALIVE"
  | USER => "USER"
  | DAILY_STATS => "DAILY_STATS"
  | PLOTDECREASE => "PLOTDECREASE"
  | PLOTINCREASE => "PLOTINCREASE"
  end.

Definition EventService_name (s : EventService) : string :=
  match s with
  | HARVESTER => "HARVESTER"
  | FARMER => "FARMER"
  | FULL_NODE => "FULL_NODE"
  | DAILY => "DAILY"
  | WALLET => "WALLET"
  end.

#[global] Instance EventPriority_eq_dec : EqDecision EventPriority.
Proof. solve_decision. Defined.
#[global] Instance EventType_eq_dec : EqDecision EventType.
Proof. solve_decision. Defined.
#[global] Instance EventService_eq_dec : EqDecision EventService.
Proof. solve_decision. Defined.

(** The dataclass [Event].  The annotation [message: str] is not enforced by
    Python, so the record is parametric in the type of the message: the
    notifier reads events whose message is a [str] ([Event]), the HTTP
    handler builds one from whatever JSON value the request carries. *)
Record EventOf (M : Type) : Type := mkEvent {
  type : EventType;
  priority : EventPriority;
  service : EventService;
  message : M
}.
Arguments mkEvent {M}.
Arguments type {M}.
Arguments priority {M}.
Arguments service {M}.
Arguments message {M}.

Definition Event : Type := EventOf string.

(** Flags of the [re] module. *)
Inductive re_flag : Type := re_I | re_M.

#[global] Instance re_flag_eq_dec : EqDecision re_flag.
Proof. solve_decision. Defined.

(** What the notifier imports: [re.search pattern text flags] (true when a
    match object is returned), [json.loads] and [json_logic.jsonLogic]. *)
Record Lib : Type := mkLib {
  re_search : pyval -> string -> list re_flag -> result bool;
  json_loads : pyval -> result pyval;
  jsonLogic : pyval -> pyval -> result pyval
}.

(** The fields of a [Notifier] instance. *)
Record t : Type := mkNotifier {
  _program_launch_time : Z;
  _title_prefix : string;
  _config : gmap string pyval;
  _conn_timeout_seconds : Z;
  _notification_types : list EventType;
  _notification_services : list EventService
}.

(** [config.get(key, False)] *)
Definition config_get (config : gmap string pyval) (key : string) : pyval :=
  default (PBool false) (config !! key).

(** [Notifier.__init__]; [now] is the value of [time.time()]. *)
Definition __init__ (now : Z) (title_prefix : string)
    (config : gmap string pyval) : t :=
  let types0 := [USER] in
  let services0 := [HARVESTER; FARMER; FULL_NODE] in
  let daily_stats := config_get config "daily_stats" in
  let wallet_events := config_get config "wallet_events" in
  let decreasing_plot_events := config_get config "decreasing_plot_events" in
  let increasing_plot_events := config_get config "increasing_plot_events" in
  let types1 := if truthy daily_stats then types0 ++ [DAILY_STATS] else types0 in
  let services1 := if truthy daily_stats then services0 ++ [DAILY] else services0 in
  let services2 := if truthy wallet_events then services1 ++ [WALLET] else services1 in
  let types2 := if truthy decreasing_plot_events then types1 ++ [PLOTDECREASE] else types1 in
  let types3 := if truthy increasing_plot_events then types2 ++ [PLOTINCREASE] else types2 in
  {| _program_launch_time := now;
     _title_prefix := title_prefix;
     _config := config;
     _conn_timeout_seconds := 10;
     _notification_types := types3;
     _notification_services := services2 |}.

(** The condition of the inner [if] of the grace-period block:
    [(event.service.name == 'HARVESTER' and event.message.startswith(...))
      or event.message.startswith(...) or event.message.startswith(...)]. *)
Definition spurious_after_launch (event : Event) : bool :=
  (String.eqb (EventService_name (service event)) "HARVESTER"
     && String.prefix "Your harvester appears to be offline!" (message event))
  || String.prefix "Experiencing networking issues?" (message event)
  || String.prefix "Cha-ching!" (message event).

(** [key in spec and spec[key] == name] *)
Definition field_equals (spec : pyval) (key name : string) : result bool :=
  let* present := contains key spec in
  if present then let* v := getitem spec key in Ok (eq_str v name) else Ok false.

(** [data] handed to [jsonLogic]. *)
Definition flattened (event : Event) : pyval :=
  PDict (<["type" := PStr (lower (EventType_name (type event)))]>
        (<["priority" := PStr (lower (EventPriority_name (priority event)))]>
        (<["service" := PStr (lower (EventService_name (service event)))]>
        (<["message" := PStr (message event)]> ∅)))).

(** The body of the [try] block, shared word for word by
    [should_ignore_event] and [should_allow_event]: [Ok (Some v)] when a
    [return v] is reached, [Ok None] when control falls off the end of the
    block, [Raise e] when an exception escapes it. *)
Definition evaluate_spec (lib : Lib) (spec : pyval) (event : Event)
    : result (option pyval) :=
  let* m := field_equals spec "type" (EventType_name (type event)) in
  if m then Ok (Some (PBool true)) else
  let* m := field_equals spec "priority" (EventPriority_name (priority event)) in
  if m then Ok (Some (PBool true)) else
  let* m := field_equals spec "service" (EventService_name (service event)) in
  if m then Ok (Some (PBool true)) else
  let* present := contains "message" spec in
  let* m := (if present
             then let* pattern := getitem spec "message" in
                  re_search lib pattern (message event) [re_M; re_I]
             else Ok false) in
  if m then Ok (Some (PBool true)) else
  let* present := contains "compound" spec in
  if present then
    let* text := getitem spec "compound" in
    let* rule := json_loads lib text in
    let data := flattened event in
    let* text' := getitem spec "compound" in
    let* _ := json_loads lib text' in
    let* res := jsonLogic lib rule data in
    Ok (Some res)
  else Ok None.

(** [try: ... except Exception as ex: logging.error(...)] followed by
    [return False].  The second component lists the exceptions that were
    caught and logged. *)
Definition guarded (body : result (option pyval)) : pyval * list exn :=
  match body with
  | Ok (Some v) => (v, [])
  | Ok None => (PBool false, [])
  | Raise ex => (PBool false, [ex])
  end.

(** [Notifier.should_ignore_event]; [now] is the value of [time.time()]. *)
Definition should_ignore_event (lib : Lib) (self : t) (now : Z)
    (event : Event) : pyval * list exn :=
  if (_program_launch_time self
        + MINIMUM_LAUNCH_SECONDS_BEFORE_ALERTING_ABOUT_BEING_OFFLINE >=? now)
     && spurious_after_launch event
  then (PBool true, [])
  else
    match _config self !! "ignore" with
    | None => (PBool false, [])
    | Some ignore => guarded (evaluate_spec lib ignore event)
    end.

(** [Notifier.should_allow_event] *)
Definition should_allow_event (lib : Lib) (self : t) (event : Event)
    : pyval * list exn :=
  match _config self !! "allow" with
  | None => (PBool true, [])
  | Some allow => guarded (evaluate_spec lib allow event)
  end.

(** [Notifier.get_title_for_event]; the icons are the UTF-8 bytes of the
    three literals of the source. *)
Definition get_title_for_event (self : t) (event : Event) : string :=
  let icon :=
    match priority event with
    | HIGH => "🚨"
    | NORMAL => "⚠️"
    | LOW => "ℹ️"
    end in
  (icon ++ " " ++ _title_prefix self ++ " "
   ++ EventService_name (service event))%string.

End Notifier.

(** ** [src/chia_log/parsers/wallet_added_coin_parser.py] *)

Module WalletAddedCoinParser.

(** *** The fragment of [re] that the compiled pattern uses

    A backtracking matcher with the search order of Python's engine: a
    greedy star first takes as many characters as it can and gives them back
    one at a time, an alternation tries its branches from left to right, an
    optional item is first tried present. *)
Inductive regex : Type :=
| Lit (s : string)
| Chr (p : ascii -> bool)
| Star (p : ascii -> bool)
| Opt (r : regex)
| Alt (r1 r2 : regex)
| Seq (r1 r2 : regex)
| Group (r : regex).

Fixpoint strip_prefix (l s : string) : option string :=
  match l, s with
  | EmptyString, _ => Some s
  | String a l', String b s' => if Ascii.eqb a b then strip_prefix l' s' else None
  | String _ _, EmptyString => None
  end.

(** The text that was consumed between the suffixes [s] and [s'] of the
    subject. *)
Definition consumed (s s' : string) : string :=
  String.substring 0 (String.length s - String.length s') s.

Fixpoint star {R : Type} (p : ascii -> bool) (s : string)
    (k : string -> option R) : option R :=
  match s with
  | String c s' =>
      if p c
      then match star p s' k with Some x => Some x | None => k s end
      else k s
  | EmptyString => k s
  end.

Fixpoint rmatch {R : Type} (r : regex) (s : string) (caps : list string)
    (k : string -> list string -> option R) : option R :=
  match r with
  | Lit l => match strip_prefix l s with Some s' => k s' caps | None => None end
  | Chr p =>
      match s with
      | String c s' => if p c then k s' caps else None
      | EmptyString => None
      end
  | Star p => star p s (fun s' => k s' caps)
  | Opt r1 =>
      match rmatch r1 s caps k with Some x => Some x | None => k s caps end
  | Alt r1 r2 =>
      match rmatch r1 s caps k with Some x => Some x | None => rmatch r2 s caps k end
  | Seq r1 r2 => rmatch r1 s caps (fun s' caps' => rmatch r2 s' caps' k)
  | Group r1 => rmatch r1 s caps (fun s' caps' => k s' (caps' ++ [consumed s s']))
  end.

(** A match anchored at the start of [s]: the captured groups and the rest
    of the subject. *)
Definition match_here (r : regex) (s : string) : option (list string * string) :=
  rmatch r s [] (fun s' caps => Some (caps, s')).

(** [pattern.findall(s)]: the groups of the leftmost match, then of the
    leftmost match after it, and so on.  [skip] counts the characters of the
    previous match that are still to be passed over. *)
Fixpoint findall_from (r : regex) (skip : nat) (s : string) : list (list string) :=
  match skip, s with
  | S n, String _ s' => findall_from r n s'
  | S _, EmptyString => []
  | O, _ =>
      match match_here r s with
      | Some (caps, rest) =>
          caps ::
          match s with
          | String _ s' =>
              findall_from r (String.length s - String.length rest - 1) s'
          | EmptyString => []
          end
      | None =>
          match s with
          | String _ s' => findall_from r O s'
          | EmptyString => []
          end
      end
  end.

Definition findall (r : regex) (s : string) : list (list string) :=
  findall_from r O s.

(** Character classes: [.], [\s], [[0-9]], [[0-9:.T-]]. *)
Definition dot (c : ascii) : bool := negb (Ascii.eqb c "010").

Definition space (c : ascii) : bool :=
  let n := nat_of_ascii c in
  ((9 <=? n) && (n <=? 13) || (28 <=? n) && (n <=? 32))%nat.

Definition digit (c : ascii) : bool :=
  let n := nat_of_ascii c in ((48 <=? n) && (n <=? 57))%nat.

Definition stamp_char (c : ascii) : bool :=
  digit c || Ascii.eqb c ":" || Ascii.eqb c "." || Ascii.eqb c "T" || Ascii.eqb c "-".

Declare Scope regex_scope.
Delimit Scope regex_scope with re.
Infix "·" := Seq (at level 60, right associativity) : regex_scope.
Infix "∣" := Alt (at level 65, right associativity) : regex_scope.

(** *** The parser *)

Record Lib : Type := mkLib {
  datetime : Type;
  (** [dateutil.parser.parse] *)
  dateutil_parse : string -> result datetime
}.

Record WalletAddedCoinMessage (lib : Lib) : Type := mkMessage {
  timestamp : datetime lib;
  amount_mojos : Z
}.
Arguments mkMessage {lib}.
Arguments timestamp {lib}.
Arguments amount_mojos {lib}.

Record t : Type := mkParser {
  _prefix : string;
  _regex : regex
}.

(** The pattern text handed to [re.compile]. *)
Definition pattern_text (prefix : string) : string :=
  ("([0-9:.T-]*) wallet (?:src|" ++ prefix ++ ").wallet.wallet_(?:state_manager|node).*"
   ++ "INFO\s*(?:Adding|Adding record to state manager|request) coin:.*'?amount'?: ([0-9]*)")%string.

(** The compiled form of [pattern_text prefix].  The configured prefix is
    spliced into the pattern text; a prefix without regex metacharacters
    (every fork name is one) stands for itself. *)
Definition pattern (prefix : string) : regex :=
  (Group (Star stamp_char) · Lit " wallet " · (Lit "src" ∣ Lit prefix)
   · Chr dot · Lit "wallet" · Chr dot · Lit "wallet_"
   · (Lit "state_manager" ∣ Lit "node") · Star dot
   · Lit "INFO" · Star space
   · (Lit "Adding" ∣ Lit "Adding record to state manager" ∣ Lit "request")
   · Lit " coin:" · Star dot
   · Opt (Lit "'") · Lit "amount" · Opt (Lit "'") · Lit ": "
   · Group (Star digit))%re.

(** [WalletAddedCoinParser.__init__]: [config['prefix']] raises on [None]
    and on a dict without the key; concatenating a non-[str] prefix to the
    pattern text raises [TypeError]. *)
Definition __init__ (config : pyval) : result t :=
  let* p := getitem config "prefix" in
  match p with
  | PStr prefix => Ok {| _prefix := prefix; _regex := pattern prefix |}
  | _ => Raise TypeError
  end.

(** [int(s)] on the text a [[0-9]*] group can capture: the empty string is
    not a valid literal. *)
Definition digit_value (c : ascii) : Z := Z.of_nat (nat_of_ascii c) - 48.

Fixpoint int_digits (acc : Z) (s : string) : result Z :=
  match s with
  | EmptyString => Ok acc
  | String c s' =>
      if digit c then int_digits (10 * acc + digit_value c) s'
      else Raise ValueError
  end.

Definition int (s : string) : result Z :=
  match s with
  | EmptyString => Raise ValueError
  | _ => int_digits 0 s
  end.

(** The [if]/[elif] chain on [self._prefix]. *)
Definition scale (prefix : string) (mojos : Z) : Z :=
  if String.eqb prefix "chives" then mojos * 10000
  else if String.eqb prefix "cryptodoge" then mojos * 1000000
  else if String.eqb prefix "shibgreen" || String.eqb prefix "littlelambocoin"
       then mojos * 1000000000
  else if String.eqb prefix "stai" then mojos * 1000
  else mojos.

(** [match[i]] of a tuple of groups. *)
Definition group (m : list string) (i : nat) : string := nth i m EmptyString.

(** The body of the [for match in matches] loop, appending to
    [parsed_messages]. *)
Fixpoint parse_matches (lib : Lib) (self : t) (matches : list (list string))
    (parsed_messages : list (WalletAddedCoinMessage lib))
    : result (list (WalletAddedCoinMessage lib)) :=
  match matches with
  | [] => Ok parsed_messages
  | m :: matches' =>
      let* mojos := int (group m 1) in
      let mojos := scale (_prefix self) mojos in
      let* ts := dateutil_parse lib (group m 0) in
      parse_matches lib self matches'
        (parsed_messages ++ [{| timestamp := ts; amount_mojos := mojos |}])
  end.

(** [WalletAddedCoinParser.parse] *)
Definition parse (lib : Lib) (self : t) (logs : string)
    : result (list (WalletAddedCoinMessage lib)) :=
  let parsed_messages := [] in
  let matches := findall (_regex self) logs in
  parse_matches lib self matches parsed_messages.

End WalletAddedCoinParser.

(** ** [src/chia_log/handlers/partial_handler.py] *)

Module PartialHandler.

(** A condition checker is an object with private state; [check] reads and
    updates that state and returns an event or [None]. *)
Record ConditionChecker (Msg Ev : Type) : Type := mkChecker {
  state : Type;
  current : state;
  check : state -> Msg -> state * option Ev
}.
Arguments mkChecker {Msg Ev}.
Arguments state {Msg Ev}.
Arguments current {Msg Ev}.
Arguments check {Msg Ev}.

(** The collaborators of the handler, none of which is defined in this
    file of the repository: the messages and [parse] of [PartialParser], the
    events, and the [StatsManager] with its [consume_partial_messages]. *)
Record Lib : Type := mkLib {
  PartialMessage : Type;
  Event : Type;
  parse : string -> list PartialMessage;
  StatsManager : Type;
  consume_partial_messages : StatsManager -> list PartialMessage -> StatsManager
}.

(** The calls the handler makes on its collaborators, in the order it makes
    them; [CallCheck i msg] is [check(msg)] on the [i]-th registered
    checker. *)
Inductive call (lib : Lib) : Type :=
| CallParse (logs : string)
| CallConsume (msgs : list (PartialMessage lib))
| CallCheck (i : nat) (msg : PartialMessage lib).
Arguments CallParse {lib}.
Arguments CallConsume {lib}.
Arguments CallCheck {lib}.

Definition checker (lib : Lib) : Type :=
  ConditionChecker (PartialMessage lib) (Event lib).

Record t (lib : Lib) : Type := mkHandler {
  _cond_checkers : list (checker lib)
}.
Arguments mkHandler {lib}.
Arguments _cond_checkers {lib}.

(** [checker.check(msg)]: the checker after the call and the value
    returned. *)
Definition call_check {lib : Lib} (c : checker lib) (msg : PartialMessage lib)
    : checker lib * option (Event lib) :=
  let (s, event) := check c (current c) msg in
  (mkChecker (state c) s (check c), event).

(** [for checker in self._cond_checkers], from the [i]-th checker on. *)
Fixpoint for_checkers {lib : Lib} (msg : PartialMessage lib) (i : nat)
    (checkers : list (checker lib)) (events : list (Event lib))
    (calls : list (call lib))
    : list (checker lib) * list (Event lib) * list (call lib) :=
  match checkers with
  | [] => ([], events, calls)
  | c :: checkers' =>
      let (c', event) := call_check c msg in
      let calls := calls ++ [CallCheck i msg] in
      let events := match event with
                    | Some e => events ++ [e]
                    | None => events
                    end in
      let '(rest, events, calls) := for_checkers msg (S i) checkers' events calls in
      (c' :: rest, events, calls)
  end.

(** [for msg in activity_messages] *)
Fixpoint for_messages {lib : Lib} (activity_messages : list (PartialMessage lib))
    (checkers : list (checker lib)) (events : list (Event lib))
    (calls : list (call lib))
    : list (checker lib) * list (Event lib) * list (call lib) :=
  match activity_messages with
  | [] => (checkers, events, calls)
  | msg :: rest =>
      let '(checkers, events, calls) := for_checkers msg O checkers events calls in
      for_messages rest checkers events calls
  end.

(** What a call of [handle] leaves behind. *)
Record outcome (lib : Lib) : Type := mkOutcome {
  returned : list (Event lib);
  handler_after : t lib;
  stats_after : option (StatsManager lib);
  calls_made : list (call lib)
}.
Arguments mkOutcome {lib}.
Arguments returned {lib}.
Arguments handler_after {lib}.
Arguments stats_after {lib}.
Arguments calls_made {lib}.

(** [PartialHandler.handle]; [stats_manager] is [None] or a [StatsManager]
    object. *)
Definition handle {lib : Lib} (self : t lib) (logs : string)
    (stats_manager : option (StatsManager lib)) : outcome lib :=
  let events := [] in
  let activity_messages := parse lib logs in
  let calls := [CallParse logs] in
  let (stats_manager, calls) :=
    match stats_manager with
    | Some sm =>
        (Some (consume_partial_messages lib sm activity_messages),
         calls ++ [CallConsume activity_messages])
    | None => (None, calls)
    end in
  let '(checkers, events, calls) :=
    for_messages activity_messages (_cond_checkers self) events calls in
  mkOutcome events (mkHandler checkers) stats_manager calls.

(** [PartialHandler.config_name] *)
Definition config_name : string := "partial_handler".

(** [PartialHandler.__init__]: the configuration goes to the base class and
    to the parser, both outside this file; the list of condition checkers
    starts empty. *)
Definition __init__ (lib : Lib) : t lib := {| _cond_checkers := [] |}.

End PartialHandler.

(** ** [http.server.BaseHTTPRequestHandler]: what a handler method can do *)

Module HttpServer.

(** What a handler does to the connection and to the notify manager. *)
Inductive action (Ev : Type) : Type :=
| send_response (code : Z)
| send_header (keyword value : string)
| end_headers
| wfile_write (data : string)
| process_events (events : list Ev).
Arguments send_response {Ev}.
Arguments send_header {Ev}.
Arguments end_headers {Ev}.
Arguments wfile_write {Ev}.
Arguments process_events {Ev}.

(** A handler method: the actions performed, then a normal return or the
    exception that leaves the method. *)
Definition io (Ev A : Type) : Type := (list (action Ev) * result A)%type.

Definition io_bind {Ev A B : Type} (m : io Ev A) (k : A -> io Ev B) : io Ev B :=
  match m with
  | (done, Ok a) => let (more, r) := k a in (done ++ more, r)
  | (done, Raise e) => (done, Raise e)
  end.

Definition perform {Ev : Type} (a : action Ev) : io Ev unit := ([a], Ok tt).
Definition lift {Ev A : Type} (r : result A) : io Ev A := ([], r).
Definition return_ {Ev : Type} : io Ev unit := ([], Ok tt).

(** A request as the handler sees it: [self.headers] and the bytes that
    [self.rfile] delivers. *)
Record request : Type := mkRequest {
  headers : list (string * string);
  rfile : string
}.

(** [self.headers[name]]: header names compare case-insensitively, the
    first match wins, a missing header reads as [None]. *)
Definition header (req : request) (name : string) : option string :=
  snd <$> List.find (fun kv => String.eqb (lower (fst kv)) (lower name)) (headers req).

(** [self.rfile.read(length)] with the whole body already received; a
    negative length reads to the end. *)
Definition read (req : request) (length : Z) : string :=
  if length <? 0 then rfile req
  else String.substring 0 (Z.to_nat length) (rfile req).

End HttpServer.

Notation "'let+' x ':=' m 'in' k" := (HttpServer.io_bind m (fun x => k))
  (at level 10, x name, m at level 100, k at level 200).
Notation "m ';;' k" := (HttpServer.io_bind m (fun _ => k))
  (at level 100, k at level 200, right associativity).

(** ** [src/chia_log/api_handler.py] *)

Module ApiHandler.

Import Notifier HttpServer.

Definition PORT : Z := 8925.

(** The builtins and library functions [do_POST] calls: the content type
    that [cgi.parse_header] extracts, [int] on a header value and
    [json.loads] on the body. *)
Record Lib : Type := mkLib {
  parse_header : string -> string;
  int : string -> result Z;
  json_loads : string -> result pyval
}.

(** [EventType[name]], [EventPriority[name]], [EventService[name]]: lookup
    of a member by its name; [KeyError] when there is none. *)
Definition by_name {A : Type} (name_of : A -> string) (members : list A)
    (name : string) : result A :=
  match List.find (fun m => String.eqb (name_of m) name) members with
  | Some m => Ok m
  | None => Raise KeyError
  end.

Definition EventType_ : string -> result EventType :=
  by_name EventType_name [KEEPALIVE; USER; DAILY_STATS; PLOTDECREASE; PLOTINCREASE].

Definition EventPriority_ : string -> result EventPriority :=
  by_name EventPriority_name [LOW; NORMAL; HIGH].

Definition EventService_ : string -> result EventService :=
  by_name EventService_name [HARVESTER; FARMER; FULL_NODE; DAILY; WALLET].

(** [v.upper()]: only a [str] has the method. *)
Definition upper_ (v : pyval) : result string :=
  match v with
  | PStr s => Ok (upper s)
  | _ => Raise AttributeError
  end.

Definition handler (A : Type) : Type := io (EventOf pyval) A.

(** [RequestHandler._set_headers] *)
Definition _set_headers : handler unit :=
  (perform (send_response 200) ;;
   perform (send_header "Content-type" "application/json") ;;
   perform end_headers).

(** [RequestHandler.do_HEAD] *)
Definition do_HEAD : handler unit := _set_headers.

(** [RequestHandler.do_GET]; the body is [json.dumps] of the dict. *)
Definition do_GET : handler unit :=
  (_set_headers ;;
   perform (wfile_write (dq "{'hello': 'world', 'received': 'ok'}"))).

(** [self.send_response(400); self.end_headers(); return] *)
Definition refuse : handler unit :=
  (perform (send_response 400) ;; perform end_headers).

(** [cgi.parse_header(None)] and [int(None)] raise [TypeError]. *)
Definition on_header {A : Type} (h : option string) (f : string -> result A)
    : result A :=
  match h with
  | Some v => f v
  | None => Raise TypeError
  end.

(** [RequestHandler.do_POST] *)
Definition do_POST (lib : Lib) (req : request) : handler unit :=
  let+ ctype := lift (on_header (header req "content-type")
                                (fun v => Ok (parse_header lib v))) in
  if negb (String.eqb ctype "application/json") then refuse else
  let+ length := lift (on_header (header req "content-length") (int lib)) in
  let+ message := lift (json_loads lib (read req length)) in
  let+ present := lift (contains "type" message) in
  if negb present then refuse else
  let+ event_type := lift (let* v := getitem message "type" in
                           let* name := upper_ v in EventType_ name) in
  let+ present := lift (contains "priority" message) in
  if negb present then refuse else
  let+ event_priority := lift (let* v := getitem message "priority" in
                               let* name := upper_ v in EventPriority_ name) in
  let+ present := lift (contains "service" message) in
  if negb present then refuse else
  let+ event_service := lift (let* v := getitem message "service" in
                              let* name := upper_ v in EventService_ name) in
  let+ present := lift (contains "message" message) in
  if negb present then refuse else
  let+ text := lift (getitem message "message") in
  let event := mkEvent event_type event_priority event_service text in
  (perform (process_events [event]) ;;
   _set_headers ;;
   perform (wfile_write "Event received and notifications sent.")).

End ApiHandler.

(** ** Executable instances of the library interfaces

    Small implementations of the library functions on a fragment of their
    inputs, used to run the model on concrete requests, rules and logs. *)

Module Concrete.

Import Notifier.

(** *** [json.loads] on texts without string escapes and without
    fractional numbers *)

Definition is_ws (c : ascii) : bool :=
  Ascii.eqb c " " || Ascii.eqb c "009" || Ascii.eqb c "010" || Ascii.eqb c "013".

Fixpoint skip_ws (s : string) : string :=
  match s with
  | String c s' => if is_ws c then skip_ws s' else s
  | EmptyString => s
  end.

(** The characters up to the closing quote, and what follows it. *)
Fixpoint string_body (s : string) : option (string * string) :=
  match s with
  | EmptyString => None
  | String c s' =>
      if Ascii.eqb c (ascii_of_nat 34) then Some (EmptyString, s')
      else if Ascii.eqb c (ascii_of_nat 92) then None
      else match string_body s' with
           | Some (body, rest) => Some (String c body, rest)
           | None => None
           end
  end.

Fixpoint digits (s : string) : string * string :=
  match s with
  | String c s' =>
      if WalletAddedCoinParser.digit c
      then let (d, rest) := digits s' in (String c d, rest)
      else (EmptyString, s)
  | EmptyString => (EmptyString, s)
  end.

Definition number (s : string) : option (Z * string) :=
  let (d, rest) := digits s in
  match WalletAddedCoinParser.int d with
  | Ok n => Some (n, rest)
  | Raise _ => None
  end.

Fixpoint value (fuel : nat) (s : string) : option (pyval * string) :=
  match fuel with
  | O => None
  | S fuel' =>
      match skip_ws s with
      | String c rest =>
          if Ascii.eqb c "{" then
            match skip_ws rest with
            | String "}" rest' => Some (PDict ∅, rest')
            | _ => members fuel' rest ∅
            end
          else if Ascii.eqb c "[" then
            match skip_ws rest with
            | String "]" rest' => Some (PList [], rest')
            | _ => elements fuel' rest []
            end
          else if Ascii.eqb c (ascii_of_nat 34) then
            match string_body rest with
            | Some (body, rest') => Some (PStr body, rest')
            | None => None
            end
          else if Ascii.eqb c "-" then
            match number rest with
            | Some (n, rest') => Some (PInt (- n), rest')
            | None => None
            end
          else if WalletAddedCoinParser.digit c then
            match number (String c rest) with
            | Some (n, rest') => Some (PInt n, rest')
            | None => None
            end
          else
            match WalletAddedCoinParser.strip_prefix "true" (String c rest),
                  WalletAddedCoinParser.strip_prefix "false" (String c rest),
                  WalletAddedCoinParser.strip_prefix "null" (String c rest) with
            | Some rest', _, _ => Some (PBool true, rest')
            | _, Some rest', _ => Some (PBool false, rest')
            | _, _, Some rest' => Some (PNone, rest')
            | _, _, _ => None
            end
      | EmptyString => None
      end
  end
with members (fuel : nat) (s : string) (acc : gmap string pyval)
    : option (pyval * string) :=
  match fuel with
  | O => None
  | S fuel' =>
      match skip_ws s with
      | String c rest =>
          if Ascii.eqb c (ascii_of_nat 34) then
            match string_body rest with
            | Some (key, rest1) =>
                match skip_ws rest1 with
                | String ":" rest2 =>
                    match value fuel' rest2 with
                    | Some (v, rest3) =>
                        match skip_ws rest3 with
                        | String "," rest4 => members fuel' rest4 (<[key := v]> acc)
                        | String "}" rest4 => Some (PDict (<[key := v]> acc), rest4)
                        | _ => None
                        end
                    | None => None
                    end
                | _ => None
                end
            | None => None
            end
          else None
      | EmptyString => None
      end
  end
with elements (fuel : nat) (s : string) (acc : list pyval)
    : option (pyval * string) :=
  match fuel with
  | O => None
  | S fuel' =>
      match value fuel' s with
      | Some (v, rest) =>
          match skip_ws rest with
          | String "," rest' => elements fuel' rest' (acc ++ [v])
          | String "]" rest' => Some (PList (acc ++ [v]), rest')
          | _ => None
          end
      | None => None
      end
  end.

Definition loads (s : string) : result pyval :=
  match value (2 * String.length s + 2) s with
  | Some (v, rest) =>
      match skip_ws rest with
      | EmptyString => Ok v
      | _ => Raise JSONDecodeError
      end
  | None => Raise JSONDecodeError
  end.

(** *** [re.search] with patterns free of metacharacters: a substring
    search, folding case under [re.I] *)

Definition search (pattern : pyval) (text : string) (flags : list re_flag)
    : result bool :=
  match pattern with
  | PStr p =>
      if existsb (fun g => bool_decide (g = re_I)) flags
      then Ok (str_contains (lower p) (lower text))
      else Ok (str_contains p text)
  | _ => Raise TypeError
  end.

(** *** [jsonLogic] on rules of the shape [{"==": [{"var": name}, text]}];
    any other operation is unrecognised *)

Definition logic (rule data : pyval) : result pyval :=
  match rule with
  | PDict d =>
      match d !! "==" with
      | Some (PList [PDict v; PStr text]) =>
          match v !! "var" with
          | Some (PStr name) =>
              match data with
              | PDict fields =>
                  Ok (PBool (match fields !! name with
                             | Some x => eq_str x text
                             | None => false
                             end))
              | _ => Raise TypeError
              end
          | _ => Raise ValueError
          end
      | _ => Raise ValueError
      end
  | _ => Ok rule
  end.

Definition notifier_lib : Notifier.Lib :=
  {| re_search := search;
     Notifier.json_loads := fun v =>
       match v with PStr s => loads s | _ => Raise TypeError end;
     jsonLogic := logic |}.

(** *** [cgi.parse_header] on values without quoted parameters: the text
    before the first semicolon, stripped of blanks *)

Fixpoint before_semicolon (s : string) : string :=
  match s with
  | String c s' => if Ascii.eqb c ";" then EmptyString else String c (before_semicolon s')
  | EmptyString => EmptyString
  end.

Fixpoint drop_trailing_blanks (s : string) : string :=
  match s with
  | String c s' =>
      match drop_trailing_blanks s' with
      | EmptyString => if is_ws c then EmptyString else String c EmptyString
      | t => String c t
      end
  | EmptyString => EmptyString
  end.

Definition content_type (line : string) : string :=
  drop_trailing_blanks (skip_ws (before_semicolon line)).

Definition api_lib : ApiHandler.Lib :=
  {| ApiHandler.parse_header := content_type;
     ApiHandler.int := WalletAddedCoinParser.int;
     ApiHandler.json_loads := loads |}.

(** *** [dateutil.parser.parse]: the empty string holds no date; any other
    timestamp is kept as text *)

Definition parser_lib : WalletAddedCoinParser.Lib :=
  {| WalletAddedCoinParser.datetime := string;
     WalletAddedCoinParser.dateutil_parse := fun s =>
       match s with
       | EmptyString => Raise ParserError
       | _ => Ok s
       end |}.

End Concrete.

(** ** The specification's own notions

    Definitions that follow the words of the specification, against which
    the embedded code is compared. *)

Module Spec.

Import Notifier.

(** Modelled from the spec: the filtering policy applied per event per
    channel by the concrete channels, whose code is not among the embedded
    files: "if shouldIgnore, suppress; else if not shouldAllow, suppress;
    else deliver". *)
Definition delivers (lib : Notifier.Lib) (self : Notifier.t) (now : Z)
    (event : Event) : bool :=
  if truthy (fst (should_ignore_event lib self now event)) then false
  else if negb (truthy (fst (should_allow_event lib self event))) then false
  else true.

(** A flat rule field holds exactly the given text. *)
Definition field_is (d : gmap string pyval) (key text : string) : bool :=
  match d !! key with
  | Some v => eq_str v text
  | None => false
  end.

(** Flat match: one of [type], [priority], [service] equal to the name of
    the event's member, or [message] found by a search with the flags
    [re.M | re.I]. *)
Definition flat_match (lib : Notifier.Lib) (d : gmap string pyval)
    (event : Event) : bool :=
  field_is d "type" (EventType_name (type event))
  || field_is d "priority" (EventPriority_name (priority event))
  || field_is d "service" (EventService_name (service event))
  || match d !! "message" with
     | Some p =>
         match re_search lib p (message event) [re_M; re_I] with
         | Ok found => found
         | Raise _ => false
         end
     | None => false
     end.





(** What one checker emits, record by record, when it is fed the parsed
    records in order on its own. *)
Fixpoint emitted {lib : PartialHandler.Lib} (c : PartialHandler.checker lib)
    (msgs : list (PartialHandler.PartialMessage lib))
    : list (option (PartialHandler.Event lib)) :=
  match msgs with
  | [] => []
  | msg :: rest =>
      let (c', event) := PartialHandler.call_check c msg in
      event :: emitted c' rest
  end.

(** The checker after it has been fed the records. *)
Fixpoint fed {lib : PartialHandler.Lib} (c : PartialHandler.checker lib)
    (msgs : list (PartialHandler.PartialMessage lib)) : PartialHandler.checker lib :=
  match msgs with
  | [] => c
  | msg :: rest => fed (fst (PartialHandler.call_check c msg)) rest
  end.

(** The events in parsed-record order first and checker-registration order
    second: for the [j]-th record, in turn what each checker emits for it. *)
Definition fan_out {lib : PartialHandler.Lib}
    (checkers : list (PartialHandler.checker lib))
    (msgs : list (PartialHandler.PartialMessage lib))
    : list (PartialHandler.Event lib) :=
  flat_map (fun j =>
    flat_map (fun c => option_list (nth j (emitted c msgs) None)) checkers)
    (seq 0 (length msgs)).

(** The calls to [check] in the same order: every checker on every
    record. *)
Definition check_calls {lib : PartialHandler.Lib}
    (checkers : list (PartialHandler.checker lib))
    (msgs : list (PartialHandler.PartialMessage lib))
    : list (PartialHandler.call lib) :=
  flat_map (fun msg =>
    map (fun i => PartialHandler.CallCheck i msg) (seq 0 (length checkers)))
    msgs.



(** [s0] is what is left of [s] after some of its first characters. *)
Fixpoint suffix_of (s0 s : string) : Prop :=
  s0 = s \/
  match s with
  | EmptyString => False
  | String _ s' => suffix_of s0 s'
  end.

(** The fields of a JSON object that name a member of their enumeration,
    in any letter case. *)
Definition names_type (d : gmap string pyval) : Prop :=
  exists (text : string) (t : EventType),
    d !! "type" = Some (PStr text) /\ upper text = EventType_name t.

Definition names_priority (d : gmap string pyval) : Prop :=
  exists (text : string) (p : EventPriority),
    d !! "priority" = Some (PStr text) /\ upper text = EventPriority_name p.

Definition names_service (d : gmap string pyval) : Prop :=
  exists (text : string) (s : EventService),
    d !! "service" = Some (PStr text) /\ upper text = EventService_name s.


(** What a successful [do_POST] does, for the event it built. *)
Definition accepted (event : EventOf pyval) : ApiHandler.handler unit :=
  ([HttpServer.process_events [event];
    HttpServer.send_response 200;
    HttpServer.send_header "Content-type" "application/json";
    HttpServer.end_headers;
    HttpServer.wfile_write "Event received and notifications sent."],
   Ok tt).

End Spec.

(** ** Concrete notifiers, requests and logs *)

Module Samples.

Import Notifier HttpServer.

(** The launch time of the sample notifiers. *)
Definition launch : Z := 1000.

(** [ignore = {type: "KEEPALIVE"}], [allow = {service: "WALLET"}]. *)
Definition filtered : Notifier.t :=
  __init__ launch "Chia"
    (<["ignore" := PDict {["type" := PStr "KEEPALIVE"]}]>
     (<["allow" := PDict {["service" := PStr "WALLET"]}]> ∅)).

(** [ignore = {type: "keepalive"}], in lower case. *)
Definition lowercase : Notifier.t :=
  __init__ launch "Chia" {["ignore" := PDict {["type" := PStr "keepalive"]}]}.

(** The same message pattern as ignore and as allow spec. *)
Definition offline_pattern : gmap string pyval :=
  {["message" := PStr "APPEARS TO BE OFFLINE"]}.

Definition by_message : Notifier.t :=
  __init__ launch "Chia"
    (<["ignore" := PDict offline_pattern]>
     (<["allow" := PDict offline_pattern]> ∅)).

(** A compound rule that is not JSON, as ignore and as allow spec. *)
Definition malformed : pyval := PDict {["compound" := PStr "{"]}.

Definition faulty : Notifier.t :=
  __init__ launch "Chia"
    (<["ignore" := malformed]> (<["allow" := malformed]> ∅)).

(** No ignore and no allow spec. *)
Definition plain : Notifier.t := __init__ launch "Chia" ∅.

Definition keepalive_wallet : Event := mkEvent KEEPALIVE NORMAL WALLET "ping".

Definition harvester_offline : Event :=
  mkEvent USER HIGH HARVESTER "Your harvester appears to be offline!".

Definition coin_received : Event :=
  mkEvent USER LOW WALLET "Cha-ching! Just received 2 XCH".

(** [POST /] with the body
    [{"type":"user","priority":"high","service":"farmer","message":"hello"}]. *)
Definition hello_body : string :=
  dq "{'type':'user','priority':'high','service':'farmer','message':'hello'}".

Definition post (body : string) : request :=
  {| headers := [("Content-Type", "application/json");
                 ("Content-Length", "71")];
     rfile := body |}.

Definition hello_post : request :=
  {| headers := [("Content-Type", "application/json");
                 ("Content-Length", "70")];
     rfile := hello_body |}.

(** A type that is not a member of [EventType]. *)
Definition bogus_post : request :=
  post (dq "{'type':'bogus','priority':'high','service':'farmer','message':'hello'}").

(** A body that is not JSON. *)
Definition unparsable_post : request :=
  {| headers := [("Content-Type", "application/json");
                 ("Content-Length", "8")];
     rfile := "{'type':" |}.

(** A body without the [message] key. *)
Definition incomplete_post : request :=
  {| headers := [("Content-Type", "application/json");
                 ("Content-Length", "52")];
     rfile := dq "{'type':'user','priority':'high','service':'farmer'}" |}.

(** A form posted as [text/plain]. *)
Definition plain_text_post : request :=
  {| headers := [("Content-Type", "text/plain; charset=utf-8");
                 ("Content-Length", "5")];
     rfile := "hello" |}.


(** The parser of a chives deployment. *)
Definition chives_parser : WalletAddedCoinParser.t :=
  WalletAddedCoinParser.mkParser "chives" (WalletAddedCoinParser.pattern "chives").

(** A wallet log line cut off after the amount key. *)
Definition truncated_log : string :=
  "2021-05-05T10:27:17.906 wallet src.wallet.wallet_state_manager: INFO     Adding coin: {'amount': ".

(** A handler over numeric records (one per digit of the log) with two
    edge-triggered checkers: the first reports the passage below 3 once,
    until the value recovers; the second reports the passage above 7. *)
Definition digits_lib : PartialHandler.Lib :=
  {| PartialHandler.PartialMessage := Z;
     PartialHandler.Event := string;
     PartialHandler.parse := fun logs =>
       map (fun c => Z.of_nat (nat_of_ascii c) - 48) (list_ascii_of_string logs);
     PartialHandler.StatsManager := Z;
     PartialHandler.consume_partial_messages := fun total msgs =>
       fold_left Z.add msgs total |}.

Definition edge (alerting : Z -> bool) (text : string)
    : PartialHandler.checker digits_lib :=
  PartialHandler.mkChecker bool false
    (fun was (msg : Z) =>
       (alerting msg,
        if alerting msg && negb was then Some text else None)).

Definition two_checkers : PartialHandler.t digits_lib :=
  PartialHandler.mkHandler [edge (fun v => v <? 3) "low"; edge (fun v => 7 <? v) "high"].

(** [ignore: {}] and [allow: {}]. *)
Definition empty_specs : Notifier.t :=
  __init__ launch "Chia" (<["ignore" := PDict ∅]> (<["allow" := PDict ∅]> ∅)).

(** [ignore:] and [allow:] with nothing after the colon. *)
Definition null_specs : Notifier.t :=
  __init__ launch "Chia" (<["ignore" := PNone]> (<["allow" := PNone]> ∅)).

(** A [service] entry next to a compound rule that is not JSON. *)
Definition service_and_malformed : gmap string pyval :=
  <["service" := PStr "WALLET"]> (<["compound" := PStr "{"]> ∅).

Definition flat_then_compound : Notifier.t :=
  __init__ launch "Chia"
    (<["ignore" := PDict service_and_malformed]>
     (<["allow" := PDict service_and_malformed]> ∅)).

(** [allow] with the compound rule [{"==": [{"var":"type"}, "user"]}]. *)
Definition user_rule : pyval := PStr (dq "{'==': [{'var':'type'}, 'user']}").

Definition compound_only : Notifier.t :=
  __init__ launch "Chia" {["allow" := PDict {["compound" := user_rule]}]}.

(** Requests without a header, and with bodies that are not objects of
    strings. *)
Definition headerless_post : request :=
  {| headers := []; rfile := hello_body |}.

Definition lengthless_post : request :=
  {| headers := [("Content-Type", "application/json")]; rfile := hello_body |}.

Definition number_post : request :=
  {| headers := [("Content-Type", "application/json");
                 ("Content-Length", "1")];
     rfile := "5" |}.

Definition numeric_type_post : request :=
  {| headers := [("Content-Type", "application/json");
                 ("Content-Length", "10")];
     rfile := dq "{'type':1}" |}.



End Samples.

(** * Properties *)

(** ** Notifier: subscriptions and filtering *)

Section NotifierProperties.

Import Notifier.

Variable lib : Notifier.Lib.

Lemma contains_dict (key : string) (d : gmap string pyval) :
  contains key (PDict d) = Ok (bool_decide (is_Some (d !! key))).
Proof. reflexivity. Qed.

Lemma field_equals_dict (d : gmap string pyval) (key name : string) :
  field_equals (PDict d) key name = Ok (Spec.field_is d key name).
Proof.
  unfold field_equals, Spec.field_is. rewrite contains_dict. simpl.
  destruct (d !! key) as [v|] eqn:E.
  - rewrite bool_decide_eq_true_2 by eauto. reflexivity.
  - rewrite bool_decide_eq_false_2 by (intros [? ?]; discriminate). reflexivity.
Qed.

Lemma grace_true (self : Notifier.t) (now : Z) (event : Event) :
  (_program_launch_time self
     + MINIMUM_LAUNCH_SECONDS_BEFORE_ALERTING_ABOUT_BEING_OFFLINE >=? now)
  && spurious_after_launch event = true ->
  should_ignore_event lib self now event = (PBool true, []).
Proof. intros H. unfold should_ignore_event. now rewrite H. Qed.

Lemma grace_false (self : Notifier.t) (now : Z) (event : Event) :
  (_program_launch_time self
     + MINIMUM_LAUNCH_SECONDS_BEFORE_ALERTING_ABOUT_BEING_OFFLINE >=? now)
  && spurious_after_launch event = false ->
  should_ignore_event lib self now event =
    match _config self !! "ignore" with
    | None => (PBool false, [])
    | Some ignore => guarded (evaluate_spec lib ignore event)
    end.
Proof. intros H. unfold should_ignore_event. now rewrite H. Qed.

(** C1.  With ignore spec [{type: "KEEPALIVE"}] and allow spec
    [{service: "WALLET"}], an event of type KEEPALIVE and service WALLET is
    ignored at any time, whatever its priority and message: the ignore
    decision is [True] although the allow spec matches the event, so the
    filtering policy does not deliver it. *)
Theorem C1_ignore_wins (self : Notifier.t) (now : Z) (p : EventPriority)
    (msg : string) :
  _config self !! "ignore" = Some (PDict {["type" := PStr "KEEPALIVE"]}) ->
  _config self !! "allow" = Some (PDict {["service" := PStr "WALLET"]}) ->
  let event := mkEvent KEEPALIVE p WALLET msg in
  fst (should_ignore_event lib self now event) = PBool true
  /\ fst (should_allow_event lib self event) = PBool true
  /\ Spec.delivers lib self now event = false.
Proof.
  intros Hi Ha event.
  assert (Hig : fst (should_ignore_event lib self now event) = PBool true).
  { destruct ((_program_launch_time self
       + MINIMUM_LAUNCH_SECONDS_BEFORE_ALERTING_ABOUT_BEING_OFFLINE >=? now)
       && spurious_after_launch event) eqn:G.
    - now rewrite grace_true.
    - rewrite grace_false, Hi by assumption.
      unfold evaluate_spec. rewrite field_equals_dict. reflexivity. }
  split; [exact Hig|]. split.
  - unfold should_allow_event. rewrite Ha. unfold evaluate_spec.
    rewrite !field_equals_dict. reflexivity.
  - unfold Spec.delivers. now rewrite Hig.
Qed.

Lemma service_is_harvester (s : EventService) :
  String.eqb (EventService_name s) "HARVESTER" = true <-> s = HARVESTER.
Proof. destruct s; simpl; split; intros H; congruence. Qed.

Lemma guarded_flat (d : gmap string pyval) (event : Event) :
  d !! "compound" = None ->
  fst (guarded (evaluate_spec lib (PDict d) event))
  = PBool (Spec.flat_match lib d event).
Proof.
  intros Hc. unfold evaluate_spec, Spec.flat_match.
  rewrite !field_equals_dict, !contains_dict, Hc. cbn [bind].
  destruct (Spec.field_is d "type" _); [reflexivity|].
  destruct (Spec.field_is d "priority" _); [reflexivity|].
  destruct (Spec.field_is d "service" _); [reflexivity|].
  cbn [orb].
  destruct (d !! "message") as [p|] eqn:Hm.
  - rewrite bool_decide_eq_true_2 by eauto. cbn [getitem bind]. rewrite Hm.
    cbn [bind].
    destruct (re_search lib p (message event) [re_M; re_I]) as [[|]|e];
      reflexivity.
  - rewrite bool_decide_eq_false_2 by (intros [? ?]; discriminate).
    reflexivity.
Qed.

Lemma guarded_flat_true (d : gmap string pyval) (event : Event) :
  Spec.flat_match lib d event = true ->
  fst (guarded (evaluate_spec lib (PDict d) event)) = PBool true.
Proof.
  unfold evaluate_spec, Spec.flat_match.
  rewrite !field_equals_dict, !contains_dict. cbn [bind].
  destruct (Spec.field_is d "type" _); [reflexivity|].
  destruct (Spec.field_is d "priority" _); [reflexivity|].
  destruct (Spec.field_is d "service" _); [reflexivity|].
  cbn [orb].
  destruct (d !! "message") as [p|] eqn:Hm; [|discriminate].
  rewrite bool_decide_eq_true_2 by eauto. cbn [getitem bind]. rewrite Hm.
  cbn [bind].
  destruct (re_search lib p (message event) [re_M; re_I]) as [[|]|e];
    [reflexivity|discriminate|discriminate].
Qed.

(** C2 (as amended).  A flat rule compares [type], [priority] and [service]
    by exact, case-sensitive equality with the upper-case name of the
    event's member, and searches [message] with the flags [re.M | re.I].
    Whenever one of the three fields of an ignore or allow spec holds the
    member's name as written, or the message pattern is found by that
    search, the decision is [True]; for a spec without a [compound] entry
    (and, for ignore, after the grace period) the decision is [True] in
    these cases only. *)
Theorem C2_flat_match_is_exact (self : Notifier.t) (now : Z) (event : Event)
    (d : gmap string pyval) :
  (_config self !! "ignore" = Some (PDict d) ->
   (Spec.flat_match lib d event = true ->
    fst (should_ignore_event lib self now event) = PBool true)
   /\ (d !! "compound" = None ->
       _program_launch_time self
         + MINIMUM_LAUNCH_SECONDS_BEFORE_ALERTING_ABOUT_BEING_OFFLINE < now ->
       fst (should_ignore_event lib self now event)
       = PBool (Spec.flat_match lib d event)))
  /\ (_config self !! "allow" = Some (PDict d) ->
      (Spec.flat_match lib d event = true ->
       fst (should_allow_event lib self event) = PBool true)
      /\ (d !! "compound" = None ->
          fst (should_allow_event lib self event)
          = PBool (Spec.flat_match lib d event))).
Proof.
  split.
  - intros Hi. split.
    + intros Hm.
      destruct ((_program_launch_time self
         + MINIMUM_LAUNCH_SECONDS_BEFORE_ALERTING_ABOUT_BEING_OFFLINE >=? now)
         && spurious_after_launch event) eqn:G.
      * now rewrite grace_true.
      * rewrite grace_false, Hi by assumption. now apply guarded_flat_true.
    + intros Hc Hlate. rewrite grace_false, Hi.
      * now apply guarded_flat.
      * apply andb_false_iff. left. rewrite Z.geb_leb. apply Z.leb_gt. lia.
  - intros Ha. unfold should_allow_event. rewrite Ha. split.
    + now apply guarded_flat_true.
    + now apply guarded_flat.
Qed.

(** C3.  An exception raised while the ignore rule or the allow rule is
    evaluated is caught and logged, and the decision is [False] in both
    methods: whenever a fault was caught the returned value is [False], and
    whenever the evaluation of the configured spec is reached and raises,
    the method returns [False] and logs that fault.  An ignore rule that
    faults does not suppress the event; an allow rule that faults does: the
    filtering policy then does not deliver it. *)
Theorem C3_fault_resolves_to_false (self : Notifier.t) (now : Z)
    (event : Event) (e : exn) :
  (In e (snd (should_ignore_event lib self now event)) ->
   fst (should_ignore_event lib self now event) = PBool false)
  /\ (In e (snd (should_allow_event lib self event)) ->
      fst (should_allow_event lib self event) = PBool false
      /\ Spec.delivers lib self now event = false)
  /\ (forall ignore : pyval,
        _config self !! "ignore" = Some ignore ->
        (_program_launch_time self
           + MINIMUM_LAUNCH_SECONDS_BEFORE_ALERTING_ABOUT_BEING_OFFLINE >=? now)
        && spurious_after_launch event = false ->
        evaluate_spec lib ignore event = Raise e ->
        should_ignore_event lib self now event = (PBool false, [e]))
  /\ (forall allow : pyval,
        _config self !! "allow" = Some allow ->
        evaluate_spec lib allow event = Raise e ->
        should_allow_event lib self event = (PBool false, [e])).
Proof.
  assert (Hallow : In e (snd (should_allow_event lib self event)) ->
                   fst (should_allow_event lib self event) = PBool false).
  { unfold should_allow_event.
    destruct (_config self !! "allow") as [allow|]; [|intros []].
    destruct (evaluate_spec lib allow event) as [[v|]|e']; simpl;
      solve [intros [] | reflexivity]. }
  split; [|split; [|split]].
  - unfold should_ignore_event.
    destruct (_ && _); [intros []|].
    destruct (_config self !! "ignore") as [ignore|]; [|intros []].
    destruct (evaluate_spec lib ignore event) as [[v|]|e']; simpl;
      solve [intros [] | reflexivity].
  - intros H. split; [now apply Hallow|].
    unfold Spec.delivers. rewrite (Hallow H).
    now destruct (truthy (fst (should_ignore_event lib self now event))).
  - intros ignore Hi Hg He. now rewrite grace_false, Hi, He.
  - intros allow Ha He. unfold should_allow_event. now rewrite Ha, He.
Qed.

(** C4 (as amended).  Without an ignore spec, [should_ignore_event] returns
    [True] exactly when the current time is at most 30 minutes after the
    launch time and the event is a HARVESTER event whose message starts
    with "Your harvester appears to be offline!", or an event of any
    service whose message starts with "Experiencing networking issues?" or
    with "Cha-ching!"; otherwise it returns [False].  In particular the
    offline warning of the HARVESTER service is ignored 100 seconds after
    the launch and not ignored 1900 seconds after it. *)
Theorem C4_grace_period (self : Notifier.t) (now : Z) (event : Event) :
  _config self !! "ignore" = None ->
  (fst (should_ignore_event lib self now event) = PBool true <->
   now <= _program_launch_time self + 30 * 60 /\
   ((service event = HARVESTER /\
     String.prefix "Your harvester appears to be offline!" (message event) = true)
    \/ String.prefix "Experiencing networking issues?" (message event) = true
    \/ String.prefix "Cha-ching!" (message event) = true))
  /\ (fst (should_ignore_event lib self now event) <> PBool true ->
      fst (should_ignore_event lib self now event) = PBool false)
  /\ (service event = HARVESTER ->
      message event = "Your harvester appears to be offline!" ->
      (now = _program_launch_time self + 100 ->
       fst (should_ignore_event lib self now event) = PBool true)
      /\ (now = _program_launch_time self + 1900 ->
          fst (should_ignore_event lib self now event) = PBool false)).
Proof.
  intros Hno.
  assert (Hshape : fst (should_ignore_event lib self now event)
                   = PBool ((_program_launch_time self + 30 * 60 >=? now)
                            && spurious_after_launch event)).
  { unfold should_ignore_event,
      MINIMUM_LAUNCH_SECONDS_BEFORE_ALERTING_ABOUT_BEING_OFFLINE.
    rewrite Hno. now destruct (_ && _). }
  rewrite Hshape. split; [|split].
  - split.
    + intros H. injection H as H. apply andb_true_iff in H as [Ht Hs].
      rewrite Z.geb_leb in Ht. apply Z.leb_le in Ht. split; [exact Ht|].
      unfold spurious_after_launch in Hs.
      apply orb_true_iff in Hs as [Hs|Hs]; [|now right; right].
      apply orb_true_iff in Hs as [Hs|Hs]; [|now right; left].
      apply andb_true_iff in Hs as [Hh Hp]. left.
      split; [now apply service_is_harvester|exact Hp].
    + intros [Ht Hs]. f_equal. apply andb_true_iff. split.
      * rewrite Z.geb_leb. now apply Z.leb_le.
      * unfold spurious_after_launch.
        destruct Hs as [[Hh Hp]|[Hp|Hp]]; rewrite Hp.
        -- apply service_is_harvester in Hh. now rewrite Hh.
        -- now rewrite orb_true_r.
        -- now rewrite orb_true_r.
  - now destruct (_ && _).
  - intros Hh Hm. unfold spurious_after_launch. rewrite Hh, Hm. simpl.
    split; intros ->; f_equal.
    + rewrite andb_true_r, Z.geb_leb. apply Z.leb_le. lia.
    + rewrite andb_true_r, Z.geb_leb. apply Z.leb_gt. lia.
Qed.

(** C10.  Whatever the configuration, the subscribed types of a new
    notifier contain USER and its subscribed services contain HARVESTER,
    FARMER and FULL_NODE.  A type other than USER is subscribed exactly
    when its flag is set (DAILY_STATS by [daily_stats], PLOTDECREASE by
    [decreasing_plot_events], PLOTINCREASE by [increasing_plot_events]), a
    service other than the three exactly when its flag is set (DAILY by
    [daily_stats], WALLET by [wallet_events]): the flags only add
    members. *)
Theorem C10_baseline_subscriptions (now : Z) (title_prefix : string)
    (config : gmap string pyval) :
  let self := __init__ now title_prefix config in
  let flag := fun key => truthy (config_get config key) in
  (In USER (_notification_types self)
   /\ In HARVESTER (_notification_services self)
   /\ In FARMER (_notification_services self)
   /\ In FULL_NODE (_notification_services self))
  /\ (forall t : EventType,
        In t (_notification_types self) <->
        t = USER
        \/ (t = DAILY_STATS /\ flag "daily_stats" = true)
        \/ (t = PLOTDECREASE /\ flag "decreasing_plot_events" = true)
        \/ (t = PLOTINCREASE /\ flag "increasing_plot_events" = true))
  /\ (forall s : EventService,
        In s (_notification_services self) <->
        (s = HARVESTER \/ s = FARMER \/ s = FULL_NODE)
        \/ (s = DAILY /\ flag "daily_stats" = true)
        \/ (s = WALLET /\ flag "wallet_events" = true)).
Proof.
  intros self flag. unfold self, flag, __init__. cbn [_notification_types
    _notification_services].
  destruct (truthy (config_get config "daily_stats"));
    destruct (truthy (config_get config "wallet_events"));
    destruct (truthy (config_get config "decreasing_plot_events"));
    destruct (truthy (config_get config "increasing_plot_events"));
    (split; [cbn; tauto|]);
    (split; [intros t; destruct t|intros s; destruct s]);
    cbn; intuition congruence.
Qed.

End NotifierProperties.

Import Notifier.

Lemma C1_ignore_wins_witness :
  fst (should_ignore_event Concrete.notifier_lib Samples.filtered 5000
         Samples.keepalive_wallet) = PBool true
  /\ fst (should_allow_event Concrete.notifier_lib Samples.filtered
            Samples.keepalive_wallet) = PBool true
  /\ Spec.delivers Concrete.notifier_lib Samples.filtered 5000
       Samples.keepalive_wallet = false.
Proof.
  apply (C1_ignore_wins Concrete.notifier_lib Samples.filtered 5000 NORMAL "ping");
    vm_compute; reflexivity.
Defined.

(** C2, as stated, fails: the ignore spec [{type: "keepalive"}] equals the
    name of KEEPALIVE up to case, and a KEEPALIVE event is not ignored. *)
Lemma C2_case_insensitive_fails :
  ~ (forall (lib : Notifier.Lib) (self : Notifier.t) (now : Z) (event : Event)
       (text : string),
       _config self !! "ignore" = Some (PDict {["type" := PStr text]}) ->
       upper text = EventType_name (type event) ->
       fst (should_ignore_event lib self now event) = PBool true).
Proof.
  intros H.
  specialize (H Concrete.notifier_lib Samples.lowercase 5000
                Samples.keepalive_wallet "keepalive").
  assert (E : fst (should_ignore_event Concrete.notifier_lib Samples.lowercase
                     5000 Samples.keepalive_wallet) = PBool false)
    by (vm_compute; reflexivity).
  rewrite H in E; [discriminate| vm_compute; reflexivity | reflexivity].
Qed.

Lemma C2_flat_match_is_exact_witness :
  fst (should_ignore_event Concrete.notifier_lib Samples.by_message 5000
         Samples.harvester_offline) = PBool true
  /\ fst (should_allow_event Concrete.notifier_lib Samples.by_message
            Samples.harvester_offline) = PBool true.
Proof.
  destruct (C2_flat_match_is_exact Concrete.notifier_lib Samples.by_message 5000
              Samples.harvester_offline Samples.offline_pattern)
    as [Hi Ha].
  split.
  - apply Hi; vm_compute; reflexivity.
  - apply Ha; vm_compute; reflexivity.
Defined.

Lemma C3_fault_resolves_to_false_witness :
  should_ignore_event Concrete.notifier_lib Samples.faulty 5000
    Samples.keepalive_wallet = (PBool false, [JSONDecodeError])
  /\ should_allow_event Concrete.notifier_lib Samples.faulty
       Samples.keepalive_wallet = (PBool false, [JSONDecodeError]).
Proof.
  destruct (C3_fault_resolves_to_false Concrete.notifier_lib Samples.faulty 5000
              Samples.keepalive_wallet JSONDecodeError)
    as (_ & _ & Hi & Ha).
  split.
  - apply (Hi Samples.malformed); vm_compute; reflexivity.
  - apply (Ha Samples.malformed); vm_compute; reflexivity.
Defined.

(** C4, as stated, fails: a WALLET event whose message starts with
    "Cha-ching!" is ignored 100 seconds after the launch, so an ignored
    event need not belong to the HARVESTER service. *)
Lemma C4_harvester_only_fails :
  ~ (forall (lib : Notifier.Lib) (self : Notifier.t) (now : Z) (event : Event),
       _config self !! "ignore" = None ->
       fst (should_ignore_event lib self now event) = PBool true ->
       now <= _program_launch_time self + 30 * 60
       /\ service event = HARVESTER).
Proof.
  intros H.
  destruct (H Concrete.notifier_lib Samples.plain (Samples.launch + 100)
              Samples.coin_received) as [_ Hs];
    [vm_compute; reflexivity | vm_compute; reflexivity | discriminate Hs].
Qed.

Lemma C4_grace_period_witness :
  fst (should_ignore_event Concrete.notifier_lib Samples.plain
         (Samples.launch + 100) Samples.harvester_offline) = PBool true
  /\ fst (should_ignore_event Concrete.notifier_lib Samples.plain
            (Samples.launch + 1900) Samples.harvester_offline) = PBool false.
Proof.
  split.
  - apply (C4_grace_period Concrete.notifier_lib Samples.plain
             (Samples.launch + 100) Samples.harvester_offline);
      reflexivity.
  - apply (C4_grace_period Concrete.notifier_lib Samples.plain
             (Samples.launch + 1900) Samples.harvester_offline);
      reflexivity.
Defined.

(** ** PartialHandler: fan-out *)

Section PartialHandlerProperties.

Import PartialHandler.

Context {lib : PartialHandler.Lib}.

(** One round: every checker sees [msg] once, in registration order. *)
Lemma for_checkers_round (msg : PartialMessage lib) (checkers : list (checker lib)) :
  forall (i : nat) (events : list (Event lib)) (calls : list (call lib)),
  for_checkers msg i checkers events calls =
    (map (fun c => fst (call_check c msg)) checkers,
     events ++ flat_map (fun c => option_list (snd (call_check c msg))) checkers,
     calls ++ map (fun k => CallCheck k msg) (seq i (length checkers))).
Proof.
  induction checkers as [|c rest IH]; intros i events calls.
  - cbn. now rewrite !app_nil_r.
  - cbn [for_checkers]. destruct (call_check c msg) as [c' event] eqn:E.
    rewrite IH. cbn [map flat_map fst snd length seq]. rewrite E.
    cbn [fst snd]. f_equal; [f_equal|].
    + destruct event; cbn; now rewrite <- ?app_assoc.
    + now rewrite <- app_assoc.
Qed.

Lemma emitted_cons (c : checker lib) (msg : PartialMessage lib) (rest : list (PartialMessage lib)) :
  Spec.emitted c (msg :: rest)
  = snd (call_check c msg) :: Spec.emitted (fst (call_check c msg)) rest.
Proof. cbn. now destruct (call_check c msg). Qed.

Lemma fan_out_cons (checkers : list (checker lib)) (msg : PartialMessage lib)
    (rest : list (PartialMessage lib)) :
  Spec.fan_out checkers (msg :: rest)
  = flat_map (fun c => option_list (snd (call_check c msg))) checkers
    ++ Spec.fan_out (map (fun c => fst (call_check c msg)) checkers) rest.
Proof.
  unfold Spec.fan_out. cbn [length seq flat_map]. f_equal.
  - apply flat_map_ext. intros c. now rewrite emitted_cons.
  - rewrite <- seq_shift, flat_map_concat_map, map_map,
      <- flat_map_concat_map.
    apply flat_map_ext. intros j.
    rewrite (flat_map_concat_map _ (map _ checkers)), map_map,
      <- flat_map_concat_map.
    apply flat_map_ext. intros c. now rewrite emitted_cons.
Qed.

Lemma for_messages_rounds (msgs : list (PartialMessage lib)) :
  forall (checkers : list (checker lib)) (events : list (Event lib))
         (calls : list (call lib)),
  for_messages msgs checkers events calls =
    (map (fun c => Spec.fed c msgs) checkers,
     events ++ Spec.fan_out checkers msgs,
     calls ++ Spec.check_calls checkers msgs).
Proof.
  induction msgs as [|msg rest IH]; intros checkers events calls.
  - cbn. unfold Spec.fan_out, Spec.check_calls. cbn.
    now rewrite map_id, !app_nil_r.
  - cbn [for_messages]. rewrite for_checkers_round, IH, fan_out_cons.
    rewrite map_map. unfold Spec.check_calls. cbn [flat_map Spec.fed].
    rewrite length_map, <- !app_assoc. reflexivity.
Qed.


End PartialHandlerProperties.

(** ** The ingestion endpoint *)

Section ApiHandlerProperties.

Import HttpServer ApiHandler.

Variable lib : ApiHandler.Lib.

Lemma EventType_upper (text : string) (t : EventType) :
  upper text = EventType_name t ->
  (let* name := upper_ (PStr text) in EventType_ name) = Ok t.
Proof. intros E. cbn. rewrite E. now destruct t. Qed.

Lemma EventPriority_upper (text : string) (p : EventPriority) :
  upper text = EventPriority_name p ->
  (let* name := upper_ (PStr text) in EventPriority_ name) = Ok p.
Proof. intros E. cbn. rewrite E. now destruct p. Qed.

Lemma EventService_upper (text : string) (s : EventService) :
  upper text = EventService_name s ->
  (let* name := upper_ (PStr text) in EventService_ name) = Ok s.
Proof. intros E. cbn. rewrite E. now destruct s. Qed.

Lemma contains_present (d : gmap string pyval) (key : string) (v : pyval) :
  d !! key = Some v -> contains key (PDict d) = Ok true.
Proof.
  intros H. cbn. now rewrite bool_decide_eq_true_2 by eauto.
Qed.

Lemma io_bind_lift_ok {Ev A B : Type} (a : A) (k : A -> io Ev B) :
  io_bind (lift (Ok a)) k = k a.
Proof. unfold io_bind, lift. now destruct (k a). Qed.

Lemma io_bind_lift_raise {Ev A B : Type} (e : exn) (k : A -> io Ev B) :
  io_bind (lift (Raise e)) k = ([], Raise e).
Proof. reflexivity. Qed.

(** One statement of [do_POST]: a call that may raise, or a check that may
    refuse the request. *)
Ltac do_POST_step :=
  match goal with
  | |- context [io_bind (lift ?r) _] =>
      destruct r eqn:?;
      [rewrite io_bind_lift_ok | rewrite io_bind_lift_raise; intros []]
  | |- context [if negb ?b then refuse else _] =>
      destruct b; cbn [negb]; [|cbn; intuition discriminate]
  end.

(** Every path of [do_POST] that sends a 200 response has dispatched one
    event first. *)
Lemma do_POST_200 (req : request) :
  In (send_response 200) (fst (do_POST lib req)) ->
  exists event : EventOf pyval, do_POST lib req = Spec.accepted event.
Proof.
  unfold do_POST. repeat do_POST_step.
  intros _. eexists. reflexivity.
Qed.

(** An event reaches the notify manager on that path only: a request that
    is refused, or on which [do_POST] raises, dispatches nothing. *)
Lemma do_POST_dispatch (req : request) (events : list (EventOf pyval)) :
  In (process_events events) (fst (do_POST lib req)) ->
  exists event : EventOf pyval,
    events = [event] /\ do_POST lib req = Spec.accepted event.
Proof.
  unfold do_POST. repeat do_POST_step.
  cbn. intros [H|[H|[H|[H|[H|[]]]]]]; try discriminate H.
  injection H as <-. eexists. split; reflexivity.
Qed.

(** A content type other than [application/json] is answered 400. *)
Lemma do_POST_content_type (req : request) (ct : string) :
  header req "content-type" = Some ct ->
  parse_header lib ct <> "application/json" ->
  do_POST lib req = refuse.
Proof.
  intros Hct Hne. unfold do_POST, on_header. rewrite Hct, io_bind_lift_ok.
  destruct (String.eqb_spec (parse_header lib ct) "application/json");
    [contradiction|reflexivity].
Qed.

(** A [type] that names no member of [EventType] makes [do_POST] raise
    before anything is sent, and so does a body that [json.loads] rejects. *)
Lemma do_POST_unknown_type (req : request) (ct cl text : string) (n : Z)
    (d : gmap string pyval) :
  header req "content-type" = Some ct ->
  parse_header lib ct = "application/json" ->
  header req "content-length" = Some cl ->
  int lib cl = Ok n ->
  json_loads lib (read req n) = Ok (PDict d) ->
  d !! "type" = Some (PStr text) ->
  EventType_ (upper text) = Raise KeyError ->
  do_POST lib req = ([], Raise KeyError).
Proof.
  intros Hct Hjson Hcl Hn Hbody Ht Hbad.
  unfold do_POST, on_header.
  rewrite Hct, Hjson, Hcl, Hn, !io_bind_lift_ok. cbn [String.eqb negb].
  cbn - [contains getitem upper_ EventType_ EventPriority_ EventService_].
  rewrite Hbody, (contains_present d "type" _ Ht).
  cbn [getitem]. rewrite Ht. cbn [bind upper_]. rewrite Hbad. reflexivity.
Qed.

Lemma do_POST_unparsable (req : request) (ct cl : string) (n : Z) (e : exn) :
  header req "content-type" = Some ct ->
  parse_header lib ct = "application/json" ->
  header req "content-length" = Some cl ->
  int lib cl = Ok n ->
  json_loads lib (read req n) = Raise e ->
  do_POST lib req = ([], Raise e).
Proof.
  intros Hct Hjson Hcl Hn Hbody.
  unfold do_POST, on_header.
  rewrite Hct, Hjson, Hcl, Hn, !io_bind_lift_ok. cbn [String.eqb negb].
  cbn - [contains getitem upper_ EventType_ EventPriority_ EventService_].
  now rewrite Hbody.
Qed.

(** C8.  A POST whose content type is [application/json] and whose body is
    a JSON object with [type], [priority] and [service] naming members of
    the three enumerations in any letter case, and with a [message], is
    answered 200 with the confirmation text after exactly one event with
    those members and that message has been handed to the notify manager.
    Every POST answered 200 has dispatched exactly one event. *)
Theorem C8_successful_post (req : request) :
  (forall (ct cl : string) (n : Z) (d : gmap string pyval) (t p s : string)
          (m : pyval) (ty : EventType) (pr : EventPriority) (sv : EventService),
     header req "content-type" = Some ct ->
     parse_header lib ct = "application/json" ->
     header req "content-length" = Some cl ->
     int lib cl = Ok n ->
     json_loads lib (read req n) = Ok (PDict d) ->
     d !! "type" = Some (PStr t) -> upper t = EventType_name ty ->
     d !! "priority" = Some (PStr p) -> upper p = EventPriority_name pr ->
     d !! "service" = Some (PStr s) -> upper s = EventService_name sv ->
     d !! "message" = Some m ->
     do_POST lib req = Spec.accepted (mkEvent ty pr sv m))
  /\ (In (send_response 200) (fst (do_POST lib req)) ->
      exists event : EventOf pyval, do_POST lib req = Spec.accepted event).
Proof.
  split; [|apply do_POST_200].
  intros ct cl n d t p s m ty pr sv Hct Hjson Hcl Hn Hbody Ht Et Hp Ep Hs Es Hm.
  unfold do_POST, on_header.
  rewrite Hct, Hjson, Hcl, Hn. cbn [lift io_bind String.eqb negb].
  cbn - [contains getitem upper_ EventType_ EventPriority_ EventService_].
  rewrite Hbody.
  rewrite (contains_present d "type" _ Ht), (contains_present d "priority" _ Hp),
    (contains_present d "service" _ Hs), (contains_present d "message" _ Hm).
  cbn [getitem]. rewrite Ht, Hp, Hs, Hm. cbn [bind].
  rewrite (EventType_upper t ty Et), (EventPriority_upper p pr Ep),
    (EventService_upper s sv Es).
  reflexivity.
Qed.

End ApiHandlerProperties.

Lemma C8_successful_post_witness :
  ApiHandler.do_POST Concrete.api_lib Samples.hello_post
  = Spec.accepted (mkEvent USER HIGH FARMER (PStr "hello")).
Proof.
  apply (proj1 (C8_successful_post Concrete.api_lib Samples.hello_post)
           "application/json" "70" 70
           {["type" := PStr "user"; "priority" := PStr "high";
             "service" := PStr "farmer"; "message" := PStr "hello"]}
           "user" "high" "farmer");
    vm_compute; reflexivity.
Defined.

(** C5.  The claim fails on the code: a request whose [type] is not a
    member of the enumeration, and a request whose body is not JSON, make
    [do_POST] raise ([KeyError], [JSONDecodeError]) before any response is
    sent; no 400 is produced. *)
Theorem C5_invalid_input_raises :
  ApiHandler.do_POST Concrete.api_lib Samples.bogus_post = ([], Raise KeyError)
  /\ ApiHandler.do_POST Concrete.api_lib Samples.unparsable_post
     = ([], Raise JSONDecodeError).
Proof. split; vm_compute; reflexivity. Qed.

(** ** WalletAddedCoinParser: scaling and faults *)

Section ParserProperties.

Import WalletAddedCoinParser.

Variable lib : WalletAddedCoinParser.Lib.




(** A first match with an empty amount group stops [parse] with the
    [ValueError] of [int]. *)
Lemma parse_empty_amount (self : WalletAddedCoinParser.t) (logs : string)
    (m : list string) (rest : list (list string)) :
  findall (_regex self) logs = m :: rest ->
  group m 1 = EmptyString ->
  parse lib self logs = Raise ValueError.
Proof.
  intros Hm Hg. unfold parse. rewrite Hm. cbn [parse_matches].
  now rewrite Hg.
Qed.

(** C7.  The claim fails on the code: on a wallet line that is cut off
    after the amount key the pattern matches with an empty amount group,
    and [parse] raises [ValueError] from [int], whatever the date parser
    does. *)
Theorem C7_parse_raises :
  (let* self := __init__ (PDict {["prefix" := PStr "chia"]}) in
   parse lib self Samples.truncated_log) = Raise ValueError.
Proof. vm_compute. reflexivity. Qed.

End ParserProperties.

Import WalletAddedCoinParser.



(** ** The model at work *)

Example incomplete_post_refused :
  ApiHandler.do_POST Concrete.api_lib Samples.incomplete_post = ApiHandler.refuse.
Proof. vm_compute. reflexivity. Qed.

Example plain_text_post_refused :
  ApiHandler.do_POST Concrete.api_lib Samples.plain_text_post = ApiHandler.refuse.
Proof. vm_compute. reflexivity. Qed.

Example truncated_log_matches :
  findall (pattern "chia") Samples.truncated_log
  = [["2021-05-05T10:27:17.906"; ""]].
Proof. vm_compute. reflexivity. Qed.

Example multi_line_log_matches :
  findall (pattern "chia")
    "07:00 wallet chia.wallet.wallet_node: INFO request coin: amount: 17
09:00 full_node chia.full_node.full_node: INFO nothing here
09:30 wallet src.wallet.wallet_state_manager: INFO Adding record to state manager coin: 'amount': 40 amount: 41"
  = [["07:00"; "17"]; ["09:30"; "41"]].
Proof. vm_compute. reflexivity. Qed.

Example no_match_is_empty :
  parse Concrete.parser_lib Samples.chives_parser "nothing to see" = Ok [].
Proof. vm_compute. reflexivity. Qed.

Example two_checkers_interleave :
  let out := PartialHandler.handle Samples.two_checkers "2918" (Some 0) in
  PartialHandler.returned out = ["low"; "high"; "low"; "high"]
  /\ PartialHandler.stats_after out = Some 20
  /\ length (PartialHandler.calls_made out) = 10%nat.
Proof. vm_compute. repeat split; reflexivity. Qed.

Example compound_rule_matches :
  should_allow_event Concrete.notifier_lib
    (Notifier.__init__ 0 "Chia"
       {["allow" := PDict {["compound" :=
           PStr (dq "{'==': [{'var':'type'}, 'user']}")]}]})
    Samples.harvester_offline
  = (PBool true, []).
Proof. vm_compute. reflexivity. Qed.

(** ** The pattern matcher against what a pattern denotes *)

Section MatcherProperties.

Import WalletAddedCoinParser.


Lemma append_cons (x : ascii) (a b : string) :
  (String x a ++ b)%string = String x (a ++ b)%string.
Proof. reflexivity. Qed.








Lemma suffix_of_tail (s0 : string) (c : ascii) (s : string) :
  Spec.suffix_of s0 s -> Spec.suffix_of s0 (String c s).
Proof. intros H. now right. Qed.

Lemma suffix_of_refl (s : string) : Spec.suffix_of s s.
Proof. destruct s; now left. Qed.










End MatcherProperties.

Section PatternProperties.

Import WalletAddedCoinParser.








End PatternProperties.

Section WalletLogProperties.

Import WalletAddedCoinParser.

Variable lib : WalletAddedCoinParser.Lib.















End WalletLogProperties.

(** ** Notifier: titles, subscriptions and rule evaluation *)

Section NotifierBehaviour.

Import Notifier.

Variable lib : Notifier.Lib.

Lemma EventService_name_inj (s1 s2 : EventService) :
  EventService_name s1 = EventService_name s2 -> s1 = s2.
Proof. destruct s1, s2; cbn; intros H; congruence. Qed.

Lemma append_inv_head (a b c : string) :
  (a ++ b)%string = (a ++ c)%string -> b = c.
Proof.
  induction a as [|x a IH]; [easy|]. rewrite !append_cons.
  intros [= H]. now apply IH.
Qed.

(** X1.  The title of an event tells its priority and its service: two
    events get the same title from a notifier exactly when they agree on
    both. *)
Theorem X_title_identifies (self : Notifier.t) (e1 e2 : Event) :
  get_title_for_event self e1 = get_title_for_event self e2 <->
  priority e1 = priority e2 /\ service e1 = service e2.
Proof.
  unfold get_title_for_event. split.
  - intros H.
    assert (Hp : priority e1 = priority e2).
    { destruct (priority e1), (priority e2); try reflexivity;
        repeat rewrite append_cons in H; congruence. }
    split; [exact Hp|]. rewrite Hp in H.
    apply append_inv_head, append_inv_head, append_inv_head,
      append_inv_head in H.
    now apply EventService_name_inj.
  - intros [-> ->]. reflexivity.
Qed.

(** X2.  The subscription lists of a new notifier hold no member twice, and
    between one and four types and three and five services. *)
Theorem X_subscriptions_nodup (now : Z) (title_prefix : string)
    (config : gmap string pyval) :
  let self := __init__ now title_prefix config in
  List.NoDup (_notification_types self)
  /\ List.NoDup (_notification_services self)
  /\ (1 <= length (_notification_types self) <= 4)%nat
  /\ (3 <= length (_notification_services self) <= 5)%nat.
Proof.
  intros self. unfold self, __init__.
  cbn [_notification_types _notification_services].
  destruct (truthy (config_get config "daily_stats"));
    destruct (truthy (config_get config "wallet_events"));
    destruct (truthy (config_get config "decreasing_plot_events"));
    destruct (truthy (config_get config "increasing_plot_events"));
    cbn [app length];
    (split; [|split; [|lia]]);
    repeat (constructor; [cbn; intuition discriminate|]); constructor.
Qed.

Lemma late_is_not_grace (self : Notifier.t) (now : Z) (event : Event) :
  _program_launch_time self
    + MINIMUM_LAUNCH_SECONDS_BEFORE_ALERTING_ABOUT_BEING_OFFLINE < now ->
  (_program_launch_time self
     + MINIMUM_LAUNCH_SECONDS_BEFORE_ALERTING_ABOUT_BEING_OFFLINE >=? now)
  && spurious_after_launch event = false.
Proof.
  intros H. apply andb_false_iff. left. rewrite Z.geb_leb. apply Z.leb_gt. lia.
Qed.

(** X3.  Once the grace period is over the ignore decision no longer depends
    on the time, and at any earlier time the decision is either [True] or
    the decision taken after the grace period. *)
Theorem X_grace_only_adds (self : Notifier.t) (late : Z) (event : Event) :
  _program_launch_time self
    + MINIMUM_LAUNCH_SECONDS_BEFORE_ALERTING_ABOUT_BEING_OFFLINE < late ->
  (forall now : Z,
     _program_launch_time self
       + MINIMUM_LAUNCH_SECONDS_BEFORE_ALERTING_ABOUT_BEING_OFFLINE < now ->
     should_ignore_event lib self now event
     = should_ignore_event lib self late event)
  /\ (forall now : Z,
        should_ignore_event lib self now event = (PBool true, [])
        \/ should_ignore_event lib self now event
           = should_ignore_event lib self late event).
Proof.
  intros Hlate. split.
  - intros now Hnow.
    now rewrite !grace_false by now apply late_is_not_grace.
  - intros now.
    destruct ((_program_launch_time self
       + MINIMUM_LAUNCH_SECONDS_BEFORE_ALERTING_ABOUT_BEING_OFFLINE >=? now)
       && spurious_after_launch event) eqn:G.
    + left. now apply grace_true.
    + right. rewrite (grace_false _ _ now), (grace_false _ _ late);
        [reflexivity|now apply late_is_not_grace|exact G].
Qed.

Lemma contains_absent (d : gmap string pyval) (key : string) :
  d !! key = None -> contains key (PDict d) = Ok false.
Proof.
  intros H. cbn. rewrite H.
  now rewrite bool_decide_eq_false_2 by (intros [? ?]; discriminate).
Qed.

Lemma field_is_absent (d : gmap string pyval) (key text : string) :
  d !! key = None -> Spec.field_is d key text = false.
Proof. intros H. unfold Spec.field_is. now rewrite H. Qed.

(** X4.  A spec that is a dict without any of the keys [type], [priority],
    [service], [message] and [compound] (the empty dict, a misspelt key)
    matches no event and raises nothing: as ignore spec it ignores nothing
    once the grace period is over, as allow spec it rejects every event. *)
Theorem X_spec_without_keys (self : Notifier.t) (now : Z) (event : Event)
    (d : gmap string pyval) :
  (forall key : string,
     In key ["type"; "priority"; "service"; "message"; "compound"] ->
     d !! key = None) ->
  (_config self !! "ignore" = Some (PDict d) ->
   _program_launch_time self
     + MINIMUM_LAUNCH_SECONDS_BEFORE_ALERTING_ABOUT_BEING_OFFLINE < now ->
   should_ignore_event lib self now event = (PBool false, []))
  /\ (_config self !! "allow" = Some (PDict d) ->
      should_allow_event lib self event = (PBool false, [])).
Proof.
  intros Hd.
  assert (E : evaluate_spec lib (PDict d) event = Ok None).
  { unfold evaluate_spec.
    rewrite !field_equals_dict, !field_is_absent, !contains_absent
      by (apply Hd; cbn; tauto).
    reflexivity. }
  split.
  - intros Hi Hlate. rewrite grace_false, Hi, E by now apply late_is_not_grace.
    reflexivity.
  - intros Ha. unfold should_allow_event. now rewrite Ha, E.
Qed.

Lemma field_equals_non_dict (spec : pyval) (key name : string) :
  (forall d : gmap string pyval, spec <> PDict d) ->
  field_equals spec key name = Ok false
  \/ field_equals spec key name = Raise TypeError.
Proof.
  intros Hnd. unfold field_equals.
  destruct spec as [| | |s|l|d]; try (now right).
  - cbn [contains bind]. destruct (str_contains key s); [now right|now left].
  - cbn [contains bind].
    destruct (existsb (fun v => eq_str v key) l); [now right|now left].
  - now destruct (Hnd d).
Qed.

Lemma evaluate_non_dict (spec : pyval) (event : Event) :
  (forall d : gmap string pyval, spec <> PDict d) ->
  evaluate_spec lib spec event = Ok None
  \/ evaluate_spec lib spec event = Raise TypeError.
Proof.
  intros Hnd. unfold evaluate_spec.
  destruct (field_equals_non_dict spec "type"
              (EventType_name (type event)) Hnd) as [-> | ->]; [|now right].
  destruct (field_equals_non_dict spec "priority"
              (EventPriority_name (priority event)) Hnd) as [-> | ->];
    [|now right].
  destruct (field_equals_non_dict spec "service"
              (EventService_name (service event)) Hnd) as [-> | ->];
    [|now right].
  cbn [bind].
  destruct spec as [| | |s|l|d]; try (now right).
  - cbn [contains bind getitem].
    destruct (str_contains "message" s); [now right|]. cbn [bind].
    destruct (str_contains "compound" s); [now right|now left].
  - cbn [contains bind getitem].
    destruct (existsb (fun v => eq_str v "message") l); [now right|].
    cbn [bind].
    destruct (existsb (fun v => eq_str v "compound") l); [now right|now left].
  - now destruct (Hnd d).
Qed.

(** X5.  Only a dict can match.  A spec that is a string or a list is
    never subscripted successfully, and a spec that is [None] (a key left
    empty in the YAML file), a boolean or a number makes the first
    membership test raise [TypeError]: as allow spec it rejects every
    event, as ignore spec it ignores nothing once the grace period is over;
    what is logged, if anything, is a [TypeError]. *)
Theorem X_non_dict_spec (self : Notifier.t) (now : Z) (event : Event)
    (spec : pyval) :
  (forall d : gmap string pyval, spec <> PDict d) ->
  (_config self !! "ignore" = Some spec ->
   _program_launch_time self
     + MINIMUM_LAUNCH_SECONDS_BEFORE_ALERTING_ABOUT_BEING_OFFLINE < now ->
   should_ignore_event lib self now event = (PBool false, [])
   \/ should_ignore_event lib self now event = (PBool false, [TypeError]))
  /\ (_config self !! "allow" = Some spec ->
      should_allow_event lib self event = (PBool false, [])
      \/ should_allow_event lib self event = (PBool false, [TypeError]))
  /\ (spec = PNone \/ (exists b : bool, spec = PBool b)
      \/ (exists z : Z, spec = PInt z) ->
      evaluate_spec lib spec event = Raise TypeError).
Proof.
  intros Hnd. split; [|split].
  - intros Hi Hlate. rewrite grace_false, Hi by now apply late_is_not_grace.
    destruct (evaluate_non_dict spec event Hnd) as [-> | ->];
      [now left|now right].
  - intros Ha. unfold should_allow_event. rewrite Ha.
    destruct (evaluate_non_dict spec event Hnd) as [-> | ->];
      [now left|now right].
  - intros [->|[[b ->]|[z ->]]]; reflexivity.
Qed.

(** X6.  When [type], [priority] or [service] of a dict spec holds the name
    of the event's member, the decision is [True] and nothing is raised or
    logged, whatever else the spec holds (an invalid [message] pattern, a
    malformed [compound] rule): the later entries are not looked at. *)
Theorem X_enum_match_first (self : Notifier.t) (now : Z) (event : Event)
    (d : gmap string pyval) :
  Spec.field_is d "type" (EventType_name (type event))
  || Spec.field_is d "priority" (EventPriority_name (priority event))
  || Spec.field_is d "service" (EventService_name (service event)) = true ->
  (_config self !! "ignore" = Some (PDict d) ->
   should_ignore_event lib self now event = (PBool true, []))
  /\ (_config self !! "allow" = Some (PDict d) ->
      should_allow_event lib self event = (PBool true, [])).
Proof.
  intros Hm.
  assert (E : evaluate_spec lib (PDict d) event = Ok (Some (PBool true))).
  { unfold evaluate_spec. rewrite !field_equals_dict. cbn [bind].
    destruct (Spec.field_is d "type" _); [reflexivity|].
    destruct (Spec.field_is d "priority" _); [reflexivity|].
    destruct (Spec.field_is d "service" _); [reflexivity|discriminate]. }
  split.
  - intros Hi.
    destruct ((_program_launch_time self
       + MINIMUM_LAUNCH_SECONDS_BEFORE_ALERTING_ABOUT_BEING_OFFLINE >=? now)
       && spurious_after_launch event) eqn:G.
    + now apply grace_true.
    + now rewrite grace_false, Hi, E.
  - intros Ha. unfold should_allow_event. now rewrite Ha, E.
Qed.

(** X7.  When no flat entry matches and there is no [message] entry, the
    decision of an allow spec with a [compound] entry is the value that
    [jsonLogic] returns, passed on as it is; the rule is evaluated on a
    record of exactly four fields holding the names of the event's members
    in lower case and its message. *)
Theorem X_compound_decides (self : Notifier.t) (event : Event)
    (d : gmap string pyval) (text rule : pyval) :
  Spec.field_is d "type" (EventType_name (type event))
  || Spec.field_is d "priority" (EventPriority_name (priority event))
  || Spec.field_is d "service" (EventService_name (service event)) = false ->
  d !! "message" = None ->
  d !! "compound" = Some text ->
  json_loads lib text = Ok rule ->
  _config self !! "allow" = Some (PDict d) ->
  exists data : gmap string pyval,
    should_allow_event lib self event
    = match jsonLogic lib rule (PDict data) with
      | Ok res => (res, [])
      | Raise e => (PBool false, [e])
      end
    /\ data !! "type" = Some (PStr (lower (EventType_name (type event))))
    /\ data !! "priority"
       = Some (PStr (lower (EventPriority_name (priority event))))
    /\ data !! "service"
       = Some (PStr (lower (EventService_name (service event))))
    /\ data !! "message" = Some (PStr (message event))
    /\ dom data = {["type"; "priority"; "service"; "message"]}.
Proof.
  intros Hm Hmsg Hc Hrule Ha.
  apply orb_false_iff in Hm as [Hm Hs]. apply orb_false_iff in Hm as [Ht Hp].
  exists (<["type" := PStr (lower (EventType_name (type event)))]>
          (<["priority" := PStr (lower (EventPriority_name (priority event)))]>
          (<["service" := PStr (lower (EventService_name (service event)))]>
          (<["message" := PStr (message event)]> ∅)))).
  split; [|split; [|split; [|split; [|split]]]]; try reflexivity.
  unfold should_allow_event. rewrite Ha. unfold evaluate_spec.
  rewrite !field_equals_dict, Ht, Hp, Hs, (contains_absent _ _ Hmsg).
  cbn [bind]. rewrite contains_dict, Hc.
  rewrite bool_decide_eq_true_2 by eauto.
  cbn [bind getitem]. rewrite Hc. cbn [bind]. rewrite Hrule. cbn [bind].
  unfold flattened.
  destruct (jsonLogic lib rule _); reflexivity.
Qed.

End NotifierBehaviour.

(** ** The ingestion endpoint: outcomes of a POST *)

Section ApiHandlerBehaviour.

Import Notifier HttpServer ApiHandler.

Variable lib : ApiHandler.Lib.

Ltac post_step :=
  match goal with
  | |- context [io_bind (lift ?r) _] =>
      destruct r eqn:?;
      [rewrite io_bind_lift_ok
      |rewrite io_bind_lift_raise; right; right; eexists; reflexivity]
  | |- context [if negb ?b then refuse else _] =>
      destruct b; cbn [negb]; [|now left]
  end.

(** X8.  A POST ends in one of three ways: the request is refused with 400
    and nothing else happens; or one event is dispatched and 200 is
    answered with the confirmation text; or an exception leaves the handler
    before anything was sent or dispatched. *)
Theorem X_post_outcomes (req : request) :
  do_POST lib req = refuse
  \/ (exists event : EventOf pyval, do_POST lib req = Spec.accepted event)
  \/ (exists e : exn, do_POST lib req = ([], Raise e)).
Proof.
  unfold do_POST. repeat post_step.
  right. left. eexists. reflexivity.
Qed.

(** X9.  A request whose content type is not exactly [application/json] is
    refused with 400 before the length header and the body are looked at. *)
Theorem X_wrong_content_type (req : request) (ct : string) :
  header req "content-type" = Some ct ->
  parse_header lib ct <> "application/json" ->
  do_POST lib req = refuse.
Proof.
  intros Hct Hne. unfold do_POST, on_header. rewrite Hct, io_bind_lift_ok.
  destruct (String.eqb_spec (parse_header lib ct) "application/json");
    [contradiction|reflexivity].
Qed.

(** X10.  Without a [Content-Type] header, or with a JSON content type and
    without a [Content-Length] header, [do_POST] raises [TypeError] and
    answers nothing. *)
Theorem X_missing_header (req : request) :
  (header req "content-type" = None ->
   do_POST lib req = ([], Raise TypeError))
  /\ (forall ct : string,
        header req "content-type" = Some ct ->
        parse_header lib ct = "application/json" ->
        header req "content-length" = None ->
        do_POST lib req = ([], Raise TypeError)).
Proof.
  split.
  - intros H. unfold do_POST, on_header. now rewrite H.
  - intros ct Hct Hjson Hcl. unfold do_POST, on_header.
    rewrite Hct, Hjson, Hcl, io_bind_lift_ok. reflexivity.
Qed.

Lemma post_body (req : request) (ct cl : string) (n : Z) (message : pyval)
    (k : pyval -> handler unit) :
  header req "content-type" = Some ct ->
  parse_header lib ct = "application/json" ->
  header req "content-length" = Some cl ->
  int lib cl = Ok n ->
  json_loads lib (read req n) = Ok message ->
  (let+ ctype := lift (on_header (header req "content-type")
                                 (fun v => Ok (parse_header lib v))) in
   if negb (String.eqb ctype "application/json") then refuse else
   let+ length := lift (on_header (header req "content-length") (int lib)) in
   let+ message := lift (json_loads lib (read req length)) in k message)
  = k message.
Proof.
  intros Hct Hjson Hcl Hn Hbody. unfold on_header.
  rewrite Hct, io_bind_lift_ok, Hjson, String.eqb_refl. cbn [negb].
  now rewrite Hcl, Hn, io_bind_lift_ok, Hbody, io_bind_lift_ok.
Qed.

Lemma key_missing (d : gmap string pyval) (key : string)
    (k : handler unit) :
  d !! key = None ->
  (let+ present := lift (contains key (PDict d)) in
   if negb present then refuse else k) = refuse.
Proof.
  intros H. now rewrite (contains_absent _ _ H), io_bind_lift_ok.
Qed.

Lemma key_names {A : Type} (d : gmap string pyval) (key text : string)
    (E_ : string -> result A) (m : A) (k : A -> handler unit) :
  d !! key = Some (PStr text) ->
  E_ (upper text) = Ok m ->
  (let+ present := lift (contains key (PDict d)) in
   if negb present then refuse else
   let+ member := lift (let* v := getitem (PDict d) key in
                        let* name := upper_ v in E_ name) in
   k member) = k m.
Proof.
  intros H Hm. rewrite (contains_present _ _ _ H), io_bind_lift_ok.
  cbn [negb getitem]. rewrite H. cbn [bind upper_]. rewrite Hm.
  now rewrite io_bind_lift_ok.
Qed.

Lemma EventType_named (t : EventType) : EventType_ (EventType_name t) = Ok t.
Proof. now destruct t. Qed.

Lemma EventPriority_named (p : EventPriority) :
  EventPriority_ (EventPriority_name p) = Ok p.
Proof. now destruct p. Qed.

Lemma EventService_named (s : EventService) :
  EventService_ (EventService_name s) = Ok s.
Proof. now destruct s. Qed.

(** X11.  A JSON object body that lacks one of the four keys is refused with
    400, provided the enum keys that are checked before the missing one name
    members of their enumerations: the keys are checked in the order [type],
    [priority], [service], [message]. *)
Theorem X_missing_key (req : request) (ct cl : string) (n : Z)
    (d : gmap string pyval) :
  header req "content-type" = Some ct ->
  parse_header lib ct = "application/json" ->
  header req "content-length" = Some cl ->
  int lib cl = Ok n ->
  json_loads lib (read req n) = Ok (PDict d) ->
  d !! "type" = None
  \/ (Spec.names_type d /\ d !! "priority" = None)
  \/ (Spec.names_type d /\ Spec.names_priority d /\ d !! "service" = None)
  \/ (Spec.names_type d /\ Spec.names_priority d /\ Spec.names_service d
      /\ d !! "message" = None) ->
  do_POST lib req = refuse.
Proof.
  intros Hct Hjson Hcl Hn Hbody Hkeys. unfold do_POST.
  rewrite (post_body req ct cl n (PDict d) _ Hct Hjson Hcl Hn Hbody).
  destruct Hkeys as [H|[(T & H)|[(T & P & H)|(T & P & S & H)]]].
  - now apply key_missing.
  - destruct T as (t & ty & Ht & Et).
    rewrite (key_names d "type" t EventType_ ty _ Ht)
      by (rewrite Et; apply EventType_named).
    now apply key_missing.
  - destruct T as (t & ty & Ht & Et). destruct P as (p & pr & Hp & Ep).
    rewrite (key_names d "type" t EventType_ ty _ Ht)
      by (rewrite Et; apply EventType_named).
    rewrite (key_names d "priority" p EventPriority_ pr _ Hp)
      by (rewrite Ep; apply EventPriority_named).
    now apply key_missing.
  - destruct T as (t & ty & Ht & Et). destruct P as (p & pr & Hp & Ep).
    destruct S as (s & sv & Hs & Es).
    rewrite (key_names d "type" t EventType_ ty _ Ht)
      by (rewrite Et; apply EventType_named).
    rewrite (key_names d "priority" p EventPriority_ pr _ Hp)
      by (rewrite Ep; apply EventPriority_named).
    rewrite (key_names d "service" s EventService_ sv _ Hs)
      by (rewrite Es; apply EventService_named).
    now apply key_missing.
Qed.

(** X12.  A JSON body that is [null], a boolean or a number makes the first
    membership test raise [TypeError]; a [type] that is present in an
    object but is not a string makes [upper] raise [AttributeError].  In
    both cases nothing is answered. *)
Theorem X_body_of_wrong_type (req : request) (ct cl : string) (n : Z)
    (message : pyval) :
  header req "content-type" = Some ct ->
  parse_header lib ct = "application/json" ->
  header req "content-length" = Some cl ->
  int lib cl = Ok n ->
  json_loads lib (read req n) = Ok message ->
  ((message = PNone \/ (exists b : bool, message = PBool b)
    \/ (exists z : Z, message = PInt z)) ->
   do_POST lib req = ([], Raise TypeError))
  /\ (forall (d : gmap string pyval) (v : pyval),
        message = PDict d -> d !! "type" = Some v ->
        (forall text : string, v <> PStr text) ->
        do_POST lib req = ([], Raise AttributeError)).
Proof.
  intros Hct Hjson Hcl Hn Hbody. unfold do_POST.
  rewrite (post_body req ct cl n message _ Hct Hjson Hcl Hn Hbody).
  split.
  - intros [->|[[b ->]|[z ->]]]; reflexivity.
  - intros d v -> Hv Hnot.
    rewrite (contains_present _ _ _ Hv), io_bind_lift_ok.
    cbn [negb getitem]. rewrite Hv. cbn [bind].
    destruct v as [| | |text| |]; try reflexivity.
    now destruct (Hnot text eq_refl).
Qed.

(** X13.  Looking a member up by name inverts [name]: the lookup returns a
    member exactly for that member's name, and the lower-case names that
    the compound rules see are accepted back by the endpoint, which upper
    cases what it receives. *)
Theorem X_member_by_name :
  (forall (text : string) (t : EventType),
     EventType_ text = Ok t <-> text = EventType_name t)
  /\ (forall (text : string) (p : EventPriority),
        EventPriority_ text = Ok p <-> text = EventPriority_name p)
  /\ (forall (text : string) (s : EventService),
        EventService_ text = Ok s <-> text = EventService_name s)
  /\ (forall t : EventType,
        EventType_ (upper (lower (EventType_name t))) = Ok t)
  /\ (forall p : EventPriority,
        EventPriority_ (upper (lower (EventPriority_name p))) = Ok p)
  /\ (forall s : EventService,
        EventService_ (upper (lower (EventService_name s))) = Ok s).
Proof.
  repeat split; try (intros ->; first [apply EventType_named
    | apply EventPriority_named | apply EventService_named]).
  - unfold EventType_, by_name. cbn [List.find].
    repeat match goal with
    | |- context [String.eqb ?a text] =>
        destruct (String.eqb_spec a text) as [<-|_]; [now intros [= <-]|]
    end.
    discriminate.
  - unfold EventPriority_, by_name. cbn [List.find].
    repeat match goal with
    | |- context [String.eqb ?a text] =>
        destruct (String.eqb_spec a text) as [<-|_]; [now intros [= <-]|]
    end.
    discriminate.
  - unfold EventService_, by_name. cbn [List.find].
    repeat match goal with
    | |- context [String.eqb ?a text] =>
        destruct (String.eqb_spec a text) as [<-|_]; [now intros [= <-]|]
    end.
    discriminate.
  - intros []; reflexivity.
  - intros []; reflexivity.
  - intros []; reflexivity.
Qed.

End ApiHandlerBehaviour.

(** ** PartialHandler: batches, bounds and the empty registry *)

Section PartialHandlerBehaviour.

Import PartialHandler.

Context {lib : PartialHandler.Lib}.

Lemma fed_current (c : checker lib) : Spec.fed c [] = c.
Proof. reflexivity. Qed.

Lemma handle_unfold (self : PartialHandler.t lib) (logs : string)
    (stats_manager : option (StatsManager lib)) :
  handle self logs stats_manager =
    mkOutcome
      (Spec.fan_out (_cond_checkers self) (parse lib logs))
      (mkHandler (map (fun c => Spec.fed c (parse lib logs)) (_cond_checkers self)))
      (match stats_manager with
       | Some sm => Some (consume_partial_messages lib sm (parse lib logs))
       | None => None
       end)
      ([CallParse logs]
       ++ match stats_manager with
          | Some _ => [CallConsume (parse lib logs)]
          | None => []
          end
       ++ Spec.check_calls (_cond_checkers self) (parse lib logs)).
Proof.
  unfold handle. destruct stats_manager as [sm|];
    now rewrite for_messages_rounds.
Qed.

(** X14.  A handler as [__init__] builds it has no condition checker, so
    [handle] returns no event whatever the log holds; the log is still
    parsed and a stats manager still receives the parsed records. *)
Theorem X_new_handler_is_silent (logs : string)
    (stats_manager : option (StatsManager lib)) :
  let out := handle (__init__ lib) logs stats_manager in
  returned out = []
  /\ handler_after out = __init__ lib
  /\ stats_after out =
       match stats_manager with
       | Some sm => Some (consume_partial_messages lib sm (parse lib logs))
       | None => None
       end
  /\ calls_made out =
       CallParse logs ::
       match stats_manager with
       | Some _ => [CallConsume (parse lib logs)]
       | None => []
       end.
Proof.
  intros out. unfold out. rewrite handle_unfold. unfold __init__.
  cbn [returned handler_after stats_after calls_made _cond_checkers map].
  unfold Spec.fan_out, Spec.check_calls. cbn [length seq map flat_map].
  assert (E1 : forall l : list nat,
             flat_map (fun _ : nat => @nil (Event lib)) l = [])
    by (induction l; auto).
  assert (E2 : forall l : list (PartialMessage lib),
             flat_map (fun _ => @nil (call lib)) l = [])
    by (induction l; auto).
  rewrite E1, E2. repeat split. destruct stats_manager; reflexivity.
Qed.

Lemma emitted_length (c : checker lib) (msgs : list (PartialMessage lib)) :
  length (Spec.emitted c msgs) = length msgs.
Proof.
  revert c. induction msgs as [|msg rest IH]; intros c; [reflexivity|].
  rewrite emitted_cons. cbn [length]. now rewrite IH.
Qed.

Lemma row_length (checkers : list (checker lib))
    (f : checker lib -> option (Event lib)) :
  (length (flat_map (fun c => option_list (f c)) checkers)
   <= length checkers)%nat.
Proof.
  induction checkers as [|c rest IH]; cbn [flat_map length]; [lia|].
  rewrite length_app. destruct (f c); cbn; lia.
Qed.

Lemma fan_out_length (msgs : list (PartialMessage lib)) :
  forall checkers : list (checker lib),
  (length (Spec.fan_out checkers msgs)
   <= length msgs * length checkers)%nat.
Proof.
  induction msgs as [|msg rest IH]; intros checkers; [cbn; lia|].
  rewrite fan_out_cons, length_app. cbn [length].
  pose proof (row_length checkers (fun c => snd (call_check c msg))).
  pose proof (IH (map (fun c => fst (call_check c msg)) checkers)) as H1.
  rewrite length_map in H1. lia.
Qed.

(** X15.  A call of [handle] returns at most one event per parsed record and
    registered checker, and leaves as many checkers as it found. *)
Theorem X_event_bound (self : PartialHandler.t lib) (logs : string)
    (stats_manager : option (StatsManager lib)) :
  let out := handle self logs stats_manager in
  (length (returned out)
   <= length (parse lib logs) * length (_cond_checkers self))%nat
  /\ length (_cond_checkers (handler_after out))
     = length (_cond_checkers self).
Proof.
  intros out. unfold out. rewrite handle_unfold.
  cbn [returned handler_after _cond_checkers]. split.
  - apply fan_out_length.
  - apply length_map.
Qed.

Lemma fed_app (c : checker lib) (a b : list (PartialMessage lib)) :
  Spec.fed c (a ++ b) = Spec.fed (Spec.fed c a) b.
Proof.
  revert c. induction a as [|msg a IH]; intros c; [reflexivity|].
  cbn [app Spec.fed]. apply IH.
Qed.

Lemma fan_out_app (a b : list (PartialMessage lib)) :
  forall checkers : list (checker lib),
  Spec.fan_out checkers (a ++ b)
  = Spec.fan_out checkers a
    ++ Spec.fan_out (map (fun c => Spec.fed c a) checkers) b.
Proof.
  induction a as [|msg a IH]; intros checkers.
  - cbn [app]. unfold Spec.fan_out at 2. cbn [length seq flat_map app].
    now rewrite map_id.
  - cbn [app]. rewrite !fan_out_cons, IH, map_map, <- app_assoc.
    reflexivity.
Qed.

(** X16.  Handling a log in two batches, the second with the handler that the
    first leaves behind, returns together the events of handling the whole
    log at once and leaves the same handler, whenever parsing the whole log
    gives the records of the two parts in turn. *)
Theorem X_batches_compose (self : PartialHandler.t lib) (whole part1 part2 : string)
    (s0 s1 s2 : option (StatsManager lib)) :
  parse lib whole = parse lib part1 ++ parse lib part2 ->
  let first := handle self part1 s1 in
  let second := handle (handler_after first) part2 s2 in
  let once := handle self whole s0 in
  returned once = returned first ++ returned second
  /\ handler_after once = handler_after second.
Proof.
  intros Hparse first second once. unfold once, second, first.
  rewrite !handle_unfold.
  cbn [returned handler_after _cond_checkers].
  rewrite Hparse, fan_out_app. split; [reflexivity|].
  f_equal. rewrite map_map. apply map_ext. intros c. apply fed_app.
Qed.

End PartialHandlerBehaviour.

(** ** The properties at concrete inputs *)

Import Notifier HttpServer.





Lemma X_grace_only_adds_witness :
  should_ignore_event Concrete.notifier_lib Samples.filtered 9000
    Samples.harvester_offline
  = should_ignore_event Concrete.notifier_lib Samples.filtered 5000
      Samples.harvester_offline.
Proof.
  apply (X_grace_only_adds Concrete.notifier_lib Samples.filtered 5000
           Samples.harvester_offline); reflexivity.
Defined.

Lemma X_spec_without_keys_witness :
  should_ignore_event Concrete.notifier_lib Samples.empty_specs 5000
    Samples.keepalive_wallet = (PBool false, [])
  /\ should_allow_event Concrete.notifier_lib Samples.empty_specs
       Samples.keepalive_wallet = (PBool false, []).
Proof.
  destruct (X_spec_without_keys Concrete.notifier_lib Samples.empty_specs 5000
              Samples.keepalive_wallet ∅ (fun key _ => lookup_empty key))
    as [Hi Ha].
  split; [apply Hi|apply Ha]; reflexivity.
Defined.

Lemma X_non_dict_spec_witness :
  should_ignore_event Concrete.notifier_lib Samples.null_specs 5000
    Samples.keepalive_wallet = (PBool false, [TypeError])
  /\ should_allow_event Concrete.notifier_lib Samples.null_specs
       Samples.keepalive_wallet = (PBool false, [TypeError]).
Proof.
  destruct (X_non_dict_spec Concrete.notifier_lib Samples.null_specs 5000
              Samples.keepalive_wallet PNone
              ltac:(intros d; discriminate))
    as (Hi & Ha & _).
  split.
  - destruct Hi as [Hi|Hi]; [reflexivity|reflexivity|discriminate Hi|exact Hi].
  - destruct Ha as [Ha|Ha]; [reflexivity|discriminate Ha|exact Ha].
Defined.

Lemma X_enum_match_first_witness :
  should_ignore_event Concrete.notifier_lib Samples.flat_then_compound 5000
    Samples.keepalive_wallet = (PBool true, [])
  /\ should_allow_event Concrete.notifier_lib Samples.flat_then_compound
       Samples.keepalive_wallet = (PBool true, []).
Proof.
  destruct (X_enum_match_first Concrete.notifier_lib Samples.flat_then_compound
              5000 Samples.keepalive_wallet Samples.service_and_malformed)
    as [Hi Ha]; [vm_compute; reflexivity|].
  split; [apply Hi|apply Ha]; vm_compute; reflexivity.
Defined.

Lemma X_compound_decides_witness :
  exists data : gmap string pyval,
    should_allow_event Concrete.notifier_lib Samples.compound_only
      Samples.harvester_offline
    = match jsonLogic Concrete.notifier_lib
              (PDict {["==" := PList [PDict {["var" := PStr "type"]};
                                      PStr "user"]]})
              (PDict data) with
      | Ok res => (res, [])
      | Raise e => (PBool false, [e])
      end
    /\ data !! "type" = Some (PStr "user").
Proof.
  destruct (X_compound_decides Concrete.notifier_lib Samples.compound_only
              Samples.harvester_offline {["compound" := Samples.user_rule]}
              Samples.user_rule
              (PDict {["==" := PList [PDict {["var" := PStr "type"]};
                                      PStr "user"]]}))
    as (data & Hrun & Ht & _); try (vm_compute; reflexivity).
  exists data. split; [exact Hrun|exact Ht].
Defined.

Lemma X_wrong_content_type_witness :
  ApiHandler.do_POST Concrete.api_lib Samples.plain_text_post
  = ApiHandler.refuse.
Proof.
  apply (X_wrong_content_type Concrete.api_lib Samples.plain_text_post
           "text/plain; charset=utf-8").
  - reflexivity.
  - vm_compute. discriminate.
Defined.

Lemma X_missing_header_witness :
  ApiHandler.do_POST Concrete.api_lib Samples.headerless_post
  = ([], Raise TypeError)
  /\ ApiHandler.do_POST Concrete.api_lib Samples.lengthless_post
     = ([], Raise TypeError).
Proof.
  split.
  - apply (X_missing_header Concrete.api_lib Samples.headerless_post).
    reflexivity.
  - apply (proj2 (X_missing_header Concrete.api_lib Samples.lengthless_post)
             "application/json"); reflexivity.
Defined.

Lemma X_missing_key_witness :
  ApiHandler.do_POST Concrete.api_lib Samples.incomplete_post
  = ApiHandler.refuse.
Proof.
  apply (X_missing_key Concrete.api_lib Samples.incomplete_post
           "application/json" "52" 52
           {["type" := PStr "user"; "priority" := PStr "high";
             "service" := PStr "farmer"]});
    try (vm_compute; reflexivity).
  right. right. right. repeat split.
  - exists "user", USER. split; vm_compute; reflexivity.
  - exists "high", HIGH. split; vm_compute; reflexivity.
  - exists "farmer", FARMER. split; vm_compute; reflexivity.
Defined.

Lemma X_body_of_wrong_type_witness :
  ApiHandler.do_POST Concrete.api_lib Samples.number_post
  = ([], Raise TypeError)
  /\ ApiHandler.do_POST Concrete.api_lib Samples.numeric_type_post
     = ([], Raise AttributeError).
Proof.
  split.
  - apply (X_body_of_wrong_type Concrete.api_lib Samples.number_post
             "application/json" "1" 1 (PInt 5));
      try (vm_compute; reflexivity).
    right. right. now exists 5.
  - assert (Hbody : ApiHandler.json_loads Concrete.api_lib
                       (read Samples.numeric_type_post 10)
                     = Ok (PDict {["type" := PInt 1]}))
      by (vm_compute; reflexivity).
    apply (proj2 (X_body_of_wrong_type Concrete.api_lib
                    Samples.numeric_type_post "application/json" "10" 10
                    (PDict {["type" := PInt 1]})
                    eq_refl eq_refl eq_refl eq_refl Hbody)
             {["type" := PInt 1]} (PInt 1));
      [reflexivity|reflexivity|discriminate].
Defined.

Lemma X_batches_compose_witness :
  PartialHandler.returned
    (PartialHandler.handle Samples.two_checkers "2918" None)
  = PartialHandler.returned
      (PartialHandler.handle Samples.two_checkers "29" None)
    ++ PartialHandler.returned
         (PartialHandler.handle
            (PartialHandler.handler_after
               (PartialHandler.handle Samples.two_checkers "29" None))
            "18" None).
Proof.
  apply (X_batches_compose Samples.two_checkers "2918" "29" "18" None None None).
  reflexivity.
Defined.
